(** * dpy_debugger: the ParserV2 query engine of src/__main__.py

    A shallow embedding of the class [ParserV2]: the query descriptor
    normaliser [parse_attributes], the Entity Index ([_node_mapping]), the
    parent chain resolver ([filter_parent_classes], [get_all_parent_classes]),
    the generator [parse_data] with its two search modes, and the command
    line driver [run], which takes the files as they are read and parsed and
    gives what it prints.

    Conventions of the embedding.
    - A Python [str] is the [string] of its UTF-8 bytes.  Splitting,
      searching and stripping at ASCII characters give the same on the bytes
      as on the characters.  [isupper] is Python's on an ASCII character
      and, on a character beyond ASCII, what the Unicode character database
      says, which is a parameter of the embedding ([UnicodeData]).  The
      whitespace of [isspace] and the line boundaries of [splitlines] are
      Python's restricted to ASCII.
    - A Python [int] is a [Z]; list indexing and slicing follow Python, with
      negative indices counted from the end and slices clamped.
    - [ast.parse] is the Syntax Tree Provider, an external capability: a
      parser instance holds the tree it was given.  A tree keeps, for every
      node, its kind, name, [lineno], [end_lineno] and the children that
      [ast.iter_child_nodes] lists and that can hold definitions; for a
      [ClassDef] or a function this is the statement list [body].
    - A generator is the list of the values it yields together with the way
      it ends: it returns, it raises, or the ancestor resolver it calls has
      not finished within the given number of steps. *)

From Stdlib Require Import ZArith Ascii.
From Stdlib Require String.
From stdpp Require Import base list gmap strings pretty.

(** ** Python strings *)

(** The Unicode character database that [str.isupper] consults is not part
    of the repository.  [unicode_isupper bytes] tells whether the character
    beyond ASCII with the UTF-8 encoding [bytes] is an uppercase letter for
    Python. *)
Class UnicodeData := unicode_isupper : string -> bool.

(** One character of a [str]: an ASCII character, or a character beyond
    ASCII given by its UTF-8 bytes. *)
Inductive char :=
| Ascii7 (c : ascii)
| Beyond (bytes : string).

Module PyStr.

(** [str.isspace] on one character. *)
Definition isspace (c : ascii) : bool :=
  let n := nat_of_ascii c in
  ((9 <=? n) && (n <=? 13)) || ((28 <=? n) && (n <=? 32)).

(** The number of bytes of the character whose encoding starts with the
    byte [c]: one below 192, two below 224, three below 240 and four from
    there on. *)
Definition utf8_width (c : ascii) : nat :=
  let n := nat_of_ascii c in
  if n <? 192 then 1 else if n <? 224 then 2 else if n <? 240 then 3 else 4.

(** [s[0]]: the first character of [s]; [None] is the [IndexError] of an
    empty string. *)
Definition first_char (s : string) : option char :=
  match s with
  | String c _ =>
      if nat_of_ascii c <? 128 then Some (Ascii7 c)
      else Some (Beyond (String.substring 0 (utf8_width c) s))
  | EmptyString => None
  end.

(** [ch.isupper()] for one character [ch]: the letters [A] to [Z] among the
    ASCII characters, and the uppercase letters of the Unicode character
    database beyond. *)
Definition isupper {U : UnicodeData} (ch : char) : bool :=
  match ch with
  | Ascii7 c => let n := nat_of_ascii c in (65 <=? n) && (n <=? 90)
  | Beyond bytes => unicode_isupper bytes
  end.

(** The characters at which [str.splitlines] ends a line. *)
Definition is_linebreak (c : ascii) : bool :=
  let n := nat_of_ascii c in
  ((10 <=? n) && (n <=? 13)) || ((28 <=? n) && (n <=? 30)).

Definition startswith (s prefix : string) : bool := String.prefix prefix s.

Fixpoint mem_char (c : ascii) (chars : string) : bool :=
  match chars with
  | EmptyString => false
  | String d chars' => if Ascii.eqb c d then true else mem_char c chars'
  end.

(** [s.lstrip()] and [s.rstrip()]: whitespace is dropped. *)
Fixpoint lstrip (s : string) : string :=
  match s with
  | String c s' => if isspace c then lstrip s' else s
  | EmptyString => EmptyString
  end.

Definition rstrip (s : string) : string :=
  String.rev (lstrip (String.rev s)).

(** [s.strip(chars)]: the characters of [chars] are dropped at both ends. *)
Fixpoint lstrip_chars (chars s : string) : string :=
  match s with
  | String c s' => if mem_char c chars then lstrip_chars chars s' else s
  | EmptyString => EmptyString
  end.

Definition strip_chars (s chars : string) : string :=
  String.rev (lstrip_chars chars (String.rev (lstrip_chars chars s))).

(** [sep.join(l)] *)
Fixpoint join (sep : string) (l : list string) : string :=
  match l with
  | [] => ""
  | [x] => x
  | x :: l' => x +:+ sep +:+ join sep l'
  end.

(** [s.split(sep)] for a separator that is not empty.  [skip] counts the
    characters of a separator that was just matched and are still to be
    passed over; [cur] is the segment read so far, last character first. *)
Fixpoint split_go (sep : string) (skip : nat) (cur s : string) : list string :=
  match s with
  | EmptyString => [String.rev cur]
  | String c s' =>
      match skip with
      | S k => split_go sep k cur s'
      | O =>
          if String.prefix sep s
          then String.rev cur :: split_go sep (String.length sep - 1) "" s'
          else split_go sep 0 (String c cur) s'
      end
  end.

Definition split (s sep : string) : list string := split_go sep 0 "" s.

(** [s.find(sub)] and [s.rfind(sub)]: the index of the first (last)
    occurrence, [-1] when there is none. *)
Fixpoint find_from (sub s : string) (i : Z) : Z :=
  if String.prefix sub s then i
  else match s with
       | EmptyString => (-1)%Z
       | String _ s' => find_from sub s' (i + 1)%Z
       end.

Definition find (s sub : string) : Z := find_from sub s 0%Z.

Fixpoint rfind_from (sub s : string) (i : Z) : Z :=
  match s with
  | EmptyString => if String.prefix sub s then i else (-1)%Z
  | String _ s' =>
      let r := rfind_from sub s' (i + 1)%Z in
      if (0 <=? r)%Z then r
      else if String.prefix sub s then i else (-1)%Z
  end.

Definition rfind (s sub : string) : Z := rfind_from sub s 0%Z.

(** [s.splitlines()]: a line ends at a line break, ["\r\n"] counts once,
    and a text that ends with a line break has no empty last line. *)
Fixpoint splitlines_go (cur s : string) : list string :=
  match s with
  | EmptyString =>
      match cur with EmptyString => [] | _ => [String.rev cur] end
  | String c s' =>
      if is_linebreak c then
        String.rev cur ::
          match s' with
          | String d s'' =>
              if Ascii.eqb c "013" && Ascii.eqb d "010"
              then splitlines_go "" s''
              else splitlines_go "" s'
          | EmptyString => []
          end
      else splitlines_go (String c cur) s'
  end.

Definition splitlines (s : string) : list string := splitlines_go "" s.

End PyStr.

(** The line feed, ["\n"]. *)
Definition newline : string := String "010" "".

(** ** Python sequences: indexing, slicing, [range], [list.remove] *)

Section PySeq.
Context {A : Type}.

(** [l[i]]: [None] stands for [IndexError]. *)
Definition py_index (l : list A) (i : Z) : option A :=
  let n := Z.of_nat (length l) in
  if (0 <=? i)%Z && (i <? n)%Z then l !! Z.to_nat i
  else if (- n <=? i)%Z && (i <? 0)%Z then l !! Z.to_nat (i + n)
  else None.

(** A slice bound, as Python normalises it for a sequence of length [n]. *)
Definition slice_bound (n i : Z) : Z :=
  if (i <? 0)%Z then Z.max 0 (i + n) else Z.min i n.

(** [l[a:b]] *)
Definition py_slice (l : list A) (a b : Z) : list A :=
  let n := Z.of_nat (length l) in
  let a' := slice_bound n a in
  let b' := slice_bound n b in
  take (Z.to_nat (b' - a')) (drop (Z.to_nat a') l).
End PySeq.

(** [range(a, b)] *)
Definition py_range (a b : Z) : list Z :=
  map (fun k => (a + Z.of_nat k)%Z) (seq 0 (Z.to_nat (b - a))).

(** [s[a:b]] on a string. *)
Definition str_slice (s : string) (a b : Z) : string :=
  String.string_of_list_ascii (py_slice (String.list_ascii_of_string s) a b).

(** [l.remove(x)]: the first element equal to [x] is removed; [None] stands
    for the [ValueError] raised when there is none. *)
Fixpoint list_remove (x : string) (l : list string) : option (list string) :=
  match l with
  | [] => None
  | y :: l' =>
      if String.eqb y x then Some l'
      else match list_remove x l' with
           | Some r => Some (y :: r)
           | None => None
           end
  end.

(** ** Exceptions and results *)

Inductive value_error :=
| CannotBeExact                    (* "Cannot be exact and use attributes!" *)
| NotInList                        (* list.remove(x): x not in list *)
| UnableToParse (index : string).  (* "Unable to parse <index>" *)

Inductive exn :=
| ValueError (why : value_error)
| KeyError (key : string)
| IndexError
| AttributeError.

Inductive result (A : Type) :=
| Ok (a : A)
| Raise (e : exn).
Arguments Ok {A} a.
Arguments Raise {A} e.

Definition bind {A B} (r : result A) (k : A -> result B) : result B :=
  match r with
  | Ok a => k a
  | Raise e => Raise e
  end.

Notation "'let*' x := r 'in' k" := (bind r (fun x => k))
  (at level 10, x name, r at level 100, k at level 200).

(** [o] when it holds a value, the exception [e] otherwise. *)
Definition or_raise {A} (o : option A) (e : exn) : result A :=
  match o with
  | Some a => Ok a
  | None => Raise e
  end.

(** ** The syntax tree *)

Inductive node_kind :=
| ast_Module
| ast_ClassDef
| ast_FunctionDef
| ast_AsyncFunctionDef
| ast_Other.

#[local] Set Warnings "-register-all".

Inductive node := Node {
  kind : node_kind;
  name : string;
  lineno : Z;
  end_lineno : Z;
  body : list node
}.

(** [isinstance(n, ast.ClassDef)] *)
Definition is_ClassDef (n : node) : bool :=
  match kind n with ast_ClassDef => true | _ => false end.

(** [isinstance(n, (ast.AsyncFunctionDef, ast.FunctionDef))] *)
Definition is_function (n : node) : bool :=
  match kind n with
  | ast_FunctionDef | ast_AsyncFunctionDef => true
  | _ => false
  end.

(** [isinstance(n, (ast.FunctionDef, ast.AsyncFunctionDef, ast.ClassDef))] *)
Definition is_definition (n : node) : bool := is_function n || is_ClassDef n.

Fixpoint node_size (n : node) : nat :=
  match n with
  | Node _ _ _ _ children => S (foldr (fun c acc => node_size c + acc) 0 children)
  end.

Definition forest_size (l : list node) : nat :=
  foldr (fun c acc => node_size c + acc) 0 l.

(** [ast.walk]: the nodes are taken from the left of a queue that starts
    with the root, and the children of a node are put at its right end. *)
Fixpoint walk_queue (fuel : nat) (todo : list node) : list node :=
  match fuel, todo with
  | S fuel', n :: todo' => n :: walk_queue fuel' (todo' ++ body n)
  | _, _ => []
  end.

Definition walk (root : node) : list node := walk_queue (node_size root) [root].

(** ** The parser instance *)

Record ParserV2 := {
  source_code : string;
  data : node;
  to_search_for : string;
  cls : option string;
  _node_mapping : option (gmap string node);
  exact : bool
}.

(** The Entity Index: the dictionary comprehension over [ast.walk], in which
    a later class of the same name replaces an earlier one. *)
Definition build_node_mapping (tree : node) : gmap string node :=
  foldl (fun m n => if is_ClassDef n then <[name n := n]> m else m) ∅ (walk tree).

(** [ParserV2(source_code, to_search_for, cls, exact)], where [tree] is what
    [ast.parse(source_code)] gives. *)
Definition ParserV2_init (source : string) (tree : node) (target : string)
    (c : option string) (ex : bool) : ParserV2 :=
  {| source_code := source;
     data := tree;
     to_search_for := target;
     cls := c;
     _node_mapping := if ex then None else Some (build_node_mapping tree);
     exact := ex |}.

Definition _reload (self : ParserV2) (target : string) (c : option string)
    (ex : bool) : ParserV2 :=
  {| source_code := source_code self;
     data := data self;
     to_search_for := target;
     cls := c;
     _node_mapping :=
       if ex then _node_mapping self else Some (build_node_mapping (data self));
     exact := ex |}.

(** ** The parent chain resolver *)

Definition filter_parent_classes (self : ParserV2) (text : string)
    : result (list string) :=
  let parent_classes :=
    str_slice text (PyStr.find text "(" + 1) (PyStr.rfind text ")") in
  let* mapping := or_raise (_node_mapping self) AttributeError in
  Ok (List.filter (fun parent_class => bool_decide (is_Some (mapping !! parent_class)))
        (PyStr.split parent_classes ", ")).

(** [n.lineno or 1] *)
Definition lineno_or_1 (n : node) : Z :=
  if (lineno n =? 0)%Z then 1%Z else lineno n.

(** The [while queue] loop.  [None]: the queue is not empty after [fuel]
    rounds. *)
Fixpoint parent_queue_loop (fuel : nat) (self : ParserV2) (lines : list string)
    (queue : list string) (current_nodes : list node)
    : option (result (list node)) :=
  match queue with
  | [] => Some (Ok current_nodes)
  | subclass :: queue' =>
      match fuel with
      | O => None
      | S fuel' =>
          match _node_mapping self with
          | None => Some (Raise AttributeError)
          | Some mapping =>
              match mapping !! subclass with
              | None => parent_queue_loop fuel' self lines queue' current_nodes
              | Some new_parent_class =>
                  match py_index lines (lineno_or_1 new_parent_class - 1) with
                  | None => Some (Raise IndexError)
                  | Some new_parent_class_text =>
                      match filter_parent_classes self new_parent_class_text with
                      | Raise e => Some (Raise e)
                      | Ok new_parent_classes =>
                          parent_queue_loop fuel' self lines
                            (queue' ++ new_parent_classes)
                            (current_nodes ++ [new_parent_class])
                      end
                  end
              end
          end
      end
  end.

Definition get_all_parent_classes (fuel : nat) (self : ParserV2)
    (subclasses : list string) (current_nodes : list node)
    : option (result (list node)) :=
  parent_queue_loop fuel self (PyStr.splitlines (source_code self))
    subclasses current_nodes.

(** ** The query engine *)

(** A match: the snippet and its 0-based start line. *)
Definition Match : Type := string * Z.

(** How a generator ends. *)
Inductive ending :=
| Returned
| Raised (e : exn)
| Unfinished.

Record gen_run := {
  yielded : list Match;
  ended : ending
}.

(** What the body of a [for] loop tells the loops around it: go on with the
    next element, leave the generator ([return]), or raise. *)
Inductive signal :=
| Next
| Stop
| Throw (e : exn).

Section Loops.
Context {A St : Type}.

(** [for x in xs: body], for a state [St] threaded through the rounds. *)
Fixpoint for_each (loop_body : A -> St -> St * signal) (xs : list A) (st : St)
    : St * signal :=
  match xs with
  | [] => (st, Next)
  | x :: xs' =>
      match loop_body x st with
      | (st', Next) => for_each loop_body xs' st'
      | r => r
      end
  end.
End Loops.

(** The local [already_searched] and the matches yielded so far. *)
Record gen_state (X : Type) := {
  already_searched : X;
  emitted : list Match
}.
Arguments already_searched {X} _.
Arguments emitted {X} _.

Definition finish {X} (r : gen_state X * signal) : gen_run :=
  {| yielded := emitted r.1;
     ended := match r.2 with Throw e => Raised e | _ => Returned end |}.

(** ["\n".join(lines[n.lineno - 1 : n.end_lineno]), n.lineno - 1] *)
Definition snippet (lines : list string) (n : node) : Match :=
  (PyStr.join newline (py_slice lines (lineno n - 1) (end_lineno n)),
   (lineno n - 1)%Z).

Section ExactMode.
Variables (to_seach_for : string) (count : Z) (new_lines : list string).

Abbreviation state := (gen_state (gset (Z * Z))).

(** One round of [for i in range(func_start, func_end)]. *)
Definition exact_func_line (func_node : node) (i : Z) (st : state)
    : state * signal :=
  let func_start := (lineno func_node - 1)%Z in
  let func_end := end_lineno func_node in
  if (Z.of_nat (size (already_searched st)) =? count)%Z then (st, Stop)
  else if bool_decide ((lineno func_node, end_lineno func_node) ∈ already_searched st)
  then (st, Next)
  else
    match py_index new_lines i with
    | None => (st, Throw IndexError)
    | Some line =>
        if String.eqb to_seach_for line then
          ({| already_searched :=
                {[ (lineno func_node, end_lineno func_node) ]} ∪ already_searched st;
              emitted :=
                emitted st ++
                [(PyStr.join newline (py_slice new_lines func_start func_end),
                  func_start)] |}, Next)
        else (st, Next)
    end.

(** One round of [for func_node in node.body]. *)
Definition exact_class_child (start end_ : Z) (func_node : node) (st : state)
    : state * signal :=
  if is_function func_node
     && ((start <=? lineno func_node)%Z && (lineno func_node <? end_)%Z)
  then for_each (exact_func_line func_node)
         (py_range (lineno func_node - 1) (end_lineno func_node)) st
  else (st, Next).

(** One round of [for i in range(start, end)]. *)
Definition exact_node_line (n : node) (i : Z) (st : state) : state * signal :=
  let start := (lineno n - 1)%Z in
  let end_ := end_lineno n in
  match py_index new_lines i with
  | None => (st, Throw IndexError)
  | Some line =>
      if String.eqb to_seach_for (PyStr.rstrip (PyStr.lstrip line)) then
        if negb (PyStr.startswith to_seach_for "class ") && is_ClassDef n then
          for_each (exact_class_child start end_) (body n) st
        else if (Z.of_nat (size (already_searched st)) =? count)%Z then (st, Stop)
        else if bool_decide ((start, end_) ∈ already_searched st) then (st, Next)
        else
          ({| already_searched := {[ (start, end_) ]} ∪ already_searched st;
              emitted :=
                emitted st ++
                [(PyStr.join newline (py_slice new_lines start end_), start)] |},
           Next)
      else (st, Next)
  end.

(** One round of [for node in ast.walk(self.data)]. *)
Definition exact_node (n : node) (st : state) : state * signal :=
  if is_definition n
  then for_each (exact_node_line n) (py_range (lineno n - 1) (end_lineno n)) st
  else (st, Next).
End ExactMode.

Section NameMode.
Variables (to_seach_for : string) (count : Z) (lines : list string).

Abbreviation state := (gen_state Z).

Definition yield_node (n : node) (st : state) : state :=
  {| already_searched := (already_searched st + 1)%Z;
     emitted := emitted st ++ [snippet lines n] |}.

(** One round of [for body_item in node.body]. *)
Definition class_body_item (body_item : node) (st : state) : state * signal :=
  if is_function body_item && String.eqb (name body_item) to_seach_for
  then (yield_node body_item st, Next)
  else (st, Next).

(** One round of [for node in new_nodes]. *)
Definition class_node (n : node) (st : state) : state * signal :=
  if (already_searched st =? count)%Z then (st, Stop)
  else for_each class_body_item (body n) st.

(** One round of [for function in ast.walk(data)]; the [break] ends the
    generator as well, nothing follows the loop. *)
Definition walk_node (function : node) (st : state) : state * signal :=
  if (already_searched st =? count)%Z then (st, Stop)
  else if is_definition function && String.eqb (name function) to_seach_for
  then (yield_node function st, Next)
  else (st, Next).
End NameMode.

(** [self.parse_data(count, allow_parent_class)].  [fuel] bounds the rounds
    of the ancestor resolver. *)
Definition parse_data (fuel : nat) (self : ParserV2) (count : Z)
    (allow_parent_class : bool) : gen_run :=
  let to_seach_for := to_search_for self in
  let lines := PyStr.splitlines (source_code self) in
  if exact self then
    let new_lines :=
      PyStr.splitlines
        (PyStr.rstrip (PyStr.lstrip (PyStr.join newline lines))) in
    finish (for_each (exact_node to_seach_for count new_lines) (walk (data self))
              {| already_searched := ∅; emitted := [] |})
  else
    let start := {| already_searched := 0%Z; emitted := [] |} in
    match cls self with
    | Some _cls =>
        match _node_mapping self with
        | None => {| yielded := []; ended := Raised AttributeError |}
        | Some mapping =>
            match mapping !! _cls with
            | None => {| yielded := []; ended := Returned |}
            | Some n =>
                let scan new_nodes :=
                  finish (for_each (class_node to_seach_for count lines) new_nodes start) in
                if allow_parent_class then
                  match py_index lines (lineno n - 1) with
                  | None => {| yielded := []; ended := Raised IndexError |}
                  | Some header =>
                      match filter_parent_classes self header with
                      | Raise e => {| yielded := []; ended := Raised e |}
                      | Ok parent_classes =>
                          match get_all_parent_classes fuel self parent_classes [n] with
                          | None => {| yielded := []; ended := Unfinished |}
                          | Some (Raise e) => {| yielded := []; ended := Raised e |}
                          | Some (Ok new_nodes) => scan new_nodes
                          end
                      end
                  end
                else scan [n]
            end
        end
    | None =>
        finish (for_each (walk_node to_seach_for count lines) (walk (data self)) start)
    end.

(** ** The query descriptor normaliser *)

(** The argument [index]: a string, or a dictionary of strings. *)
Inductive query :=
| QStr (s : string)
| QDict (d : gmap string string).

(** What [parse_attributes] hands back: the triple when no instance is
    given, and otherwise the instance as [_reload] leaves it. *)
Inductive parsed :=
| Returns (ret : string) (parent_class : option string) (exact : bool)
| Reloads (instance : ParserV2).

(** The branch [attributes = index.split(".")] up to [ret] and
    [parent_class]. *)
Definition parse_dotted {U : UnicodeData} (index : string)
    : result (string * option string) :=
  let attributes := PyStr.split index "." in
  let* first := or_raise (py_index attributes 0) IndexError in
  let* attributes :=
    if PyStr.startswith first "discord"
    then or_raise (list_remove "discord" attributes) (ValueError NotInList)
    else Ok attributes in
  match attributes with
  | [a0; a1] =>
      let* ch := or_raise (PyStr.first_char a0) IndexError in
      Ok (a1, if PyStr.isupper ch then Some a0 else None)
  | [a0] => Ok (a0, None)
  | _ => Raise (ValueError (UnableToParse index))
  end.

(** The branch [isinstance(index, dict)]. *)
Definition parse_descriptor (d : gmap string string) : result (string * option string) :=
  match d !! "function" with
  | Some ret => Ok (ret, d !! "class")
  | None =>
      let* ret := or_raise (d !! "class") (KeyError "class") in
      Ok (ret, None)
  end.

Definition parse_attributes {U : UnicodeData} (index : query) (ex : bool)
    (instance : option ParserV2) : result parsed :=
  let* rp :=
    match index, ex with
    | QDict _, true => Raise (ValueError CannotBeExact)
    | QStr s, true => Ok (s, None)
    | QStr s, false =>
        let* rp := parse_dotted s in
        Ok (PyStr.strip_chars rp.1 "()", rp.2)
    | QDict d, false =>
        let* rp := parse_descriptor d in
        Ok (PyStr.strip_chars rp.1 "()", rp.2)
    end in
  match instance with
  | Some self => Ok (Reloads (_reload self rp.1 rp.2 ex))
  | None => Ok (Returns rp.1 rp.2 ex)
  end.

(** [ParserV2.create_class(source_code, index, exact)] *)
Definition create_class {U : UnicodeData} (source : string) (tree : node)
    (index : query) (ex : bool) : result ParserV2 :=
  let* r := parse_attributes index ex None in
  match r with
  | Returns ret parent_class ex' => Ok (ParserV2_init source tree ret parent_class ex')
  | Reloads self => Ok self
  end.

(** ** The normaliser on an instance *)

(** With [instance] given, [parse_attributes] works on a parser that
    [_reload] changes in place and returns nothing.  A computation on an
    instance gives what it returns or raises together with the instance as
    it leaves it. *)
Definition on_instance (A : Type) : Type := ParserV2 -> result A * ParserV2.

Definition inst_ret {A} (a : A) : on_instance A := fun self => (Ok a, self).

Definition inst_raise {A} (e : exn) : on_instance A := fun self => (Raise e, self).

(** A call that does not touch the instance. *)
Definition inst_call {A} (r : result A) : on_instance A := fun self => (r, self).

Definition inst_bind {A B} (m : on_instance A) (k : A -> on_instance B)
    : on_instance B :=
  fun self =>
    match m self with
    | (Ok a, self') => k a self'
    | (Raise e, self') => (Raise e, self')
    end.

(** [instance._reload(ret, parent_class, exact)] *)
Definition inst_reload (ret : string) (parent_class : option string) (ex : bool)
    : on_instance unit :=
  fun self => (Ok tt, _reload self ret parent_class ex).

(** [parse_attributes(index, exact, instance=self)], statement by
    statement. *)
Definition parse_attributes_instance {U : UnicodeData} (index : query) (ex : bool)
    : on_instance unit :=
  inst_bind
    match index, ex with
    | QDict _, true => inst_raise (ValueError CannotBeExact)
    | QStr s, true => inst_ret (s, None)
    | QStr s, false =>
        inst_bind (inst_call (parse_dotted s))
          (fun rp => inst_ret (PyStr.strip_chars rp.1 "()", rp.2))
    | QDict d, false =>
        inst_bind (inst_call (parse_descriptor d))
          (fun rp => inst_ret (PyStr.strip_chars rp.1 "()", rp.2))
    end
    (fun rp => inst_reload rp.1 rp.2 ex).

(** ** The command line driver *)

(** [sub in s] *)
Definition str_contains (s sub : string) : bool := (0 <=? PyStr.find s sub)%Z.

(** [repr(s)] for a string without quotes, backslashes and unprintable
    characters; every string that [run] formats with [!r] is one of its own
    constants and of this kind. *)
Definition repr_plain (s : string) : string := "'" +:+ s +:+ "'".

(** [s * n] *)
Fixpoint str_repeat (s : string) (n : nat) : string :=
  match n with
  | O => ""
  | S n' => s +:+ str_repeat s n'
  end.

Definition basic_reasons : gmap string string := list_to_map
[ ("change_presence",
   "- Change presence has a low ratelimit and can easily ratelimit your bot!" +:+ newline +:+ "- Use the activity/status kwargs in your Client/Bot class");
  ("tree.sync",
   "- Sycning has a low ratelimit and can easily ratelimit your bot!" +:+ newline +:+ "- Use a message command to sync");
  ("Intents.all()",
   "- Most of the time, your bot only needs a few intents. Using all intents increases memory usage." +:+ newline +:+ "- Enabled the intents you only need");
  ("eval",
   "- Using eval/exec can be dangerous and perform harmful code to your system." +:+ newline +:+ "- Avoid allowing executing arbitrary/user-inputted code");
  ("exec",
   "- Using eval/exec can be dangerous and perform harmful code to your system." +:+ newline +:+ "- Avoid allowing executing arbitrary/user-inputted code");
  ("wait_for",
   "- Using 'wait_for' or 'wait_until_ready' requires a websocket connection. However, 'setup_hook' is called before a connection is made, which will therefore cause a deadlock, meaning your program will stop infinitely.");
  ("process_commands",
   "- When using the 'on_message' event, you override how the library handles prefix commands and your prefix commands you will no longer work without 'bot.process_commands(message)'" +:+ newline +:+ "- Add the 'bot.process_commands(message)' in your 'on_message' event.");
  ("time.sleep",
   "- Using 'time.sleep()' is a blocking function." +:+ newline +:+ "- Use 'asyncio.sleep()' instead");
  ("datetime.now()",
   "- Using 'datetime.now()' without setting the timezone can cause uninteded bevahiour as it will be based on your timezone." +:+ newline +:+ "- Consider 'discord.utils.utcnow()' which is UTC-based.");
  ("token",
   "- Avoid hard coding the bot token, it's recommended to store it in a separate file. (e.g .env)");
  ("import requests",
   "-'requests' is a non-asynchronous module, hence using it in an async-environment will make it a blocking function." +:+ newline +:+ "- Use 'aiohttp' instead which is asynchronous");
  ("author.send",
   "- Sending multiple DMs to users is not only annoying but can get your bot easily ratelimited or even quarantined.- Consider using mentions instead");
  ("user.send",
   "- Sending multiple DMs to users is not only annoying but can get your bot easily ratelimited or even quarantined.- Consider using mentions instead");
  ("member.send",
   "- Sending multiple DMs to users is not only annoying but can get your bot easily ratelimited or even quarantined.- Consider using mentions instead") ].

(** [basic_reasons.get(test, '- There are no suggested changes')] *)
Definition reason_of (test : string) : string :=
  default "- There are no suggested changes" (basic_reasons !! test).

(** The dictionary [tests], in the order of its items. *)
Definition tests : list (string * list string) :=
[ ("on_ready", ["tree.sync"; "change_presence"]);
  ("setup_hook", ["tree.sync"; "change_presence"; "wait_for"; "wait_until_ready"]);
  ("on_message", ["process_commands"]) ].

Definition tests_variables : list string :=
[ "Intents.all()"; "eval"; "exec"; "time.sleep"; "datetime.now()";
  "import requests"; "author.send"; "user.send"; "member.send" ].

Definition search_more : gset string :=
  {[ "author.send"; "user.send"; "member.send" ]}.

(** How [run] ends on a file: it goes through, an exception leaves it, or it
    waits for a generator that does not come back. *)
Inductive run_ending :=
| Completed
| Uncaught_StopIteration
| Uncaught (e : exn)
| Stuck.

(** What [run] has printed, one entry for every call of [print], and how it
    ended. *)
Record run_out := {
  printed : list string;
  run_ended : run_ending
}.

(** The five calls of [print] for one finding. *)
Definition finding (jump_url to_print : string) : list string :=
  [jump_url; to_print; ""; str_repeat "---" 25; ""].

(** [next(gen)] on a generator that has not been started. *)
Definition next (gen : gen_run) : Match + run_ending :=
  match yielded gen with
  | m :: _ => inl m
  | [] =>
      inr match ended gen with
          | Returned => Uncaught_StopIteration
          | Raised e => Uncaught e
          | Unfinished => Stuck
          end
  end.

(** One round of [for test in function_tests]. *)
Definition check_test (file function : string) (function_code : Match)
    (test : string) : list string :=
  let line := function_code.1 in
  let function_line_num := (function_code.2 + 1)%Z in
  let where_and_why :=
    " in your " +:+ repr_plain function +:+ " function (Line "
    +:+ pretty function_line_num +:+ ")" +:+ newline +:+ reason_of test in
  if String.eqb function "on_message" && String.eqb test "process_commands" then
    if str_contains line test then []
    else finding (file +:+ "#" +:+ pretty function_line_num)
           ("Did you forget a " +:+ repr_plain test +:+ where_and_why)
  else if negb (str_contains line test) then []
  else finding (file +:+ "#" +:+ pretty function_line_num)
         ("Do not use " +:+ repr_plain test +:+ where_and_why).

(** [for function, function_tests in tests.items()], from the item at the
    head of [items] on; [parser] is [None] before the first round. *)
Fixpoint check_functions {U : UnicodeData} (fuel : nat) (file source : string)
    (tree : node) (parser : option ParserV2) (items : list (string * list string))
    : run_out :=
  match items with
  | [] => {| printed := []; run_ended := Completed |}
  | (function, function_tests) :: items' =>
      let made :=
        match parser with
        | None => Ok (ParserV2_init source tree function None false)
        | Some p =>
            match parse_attributes (QStr function) false (Some p) with
            | Ok (Reloads p') => Ok p'
            | Ok (Returns _ _ _) => Ok p
            | Raise e => Raise e
            end
        end in
      match made with
      | Raise e => {| printed := []; run_ended := Uncaught e |}
      | Ok p =>
          match next (parse_data fuel p 1 true) with
          | inr stop => {| printed := []; run_ended := stop |}
          | inl function_code =>
              let rest := check_functions fuel file source tree (Some p) items' in
              {| printed :=
                   flat_map (check_test file function function_code) function_tests
                   ++ printed rest;
                 run_ended := run_ended rest |}
          end
      end
  end.

(** One round of [for test_var in tests_variables]. *)
Definition scan_test_var (file : string) (source_code_lines : list string)
    (line_num : Z) (line test_var : string) (out : list string)
    : list string * signal :=
  if str_contains line test_var then
    let looked :=
      if bool_decide (test_var ∈ search_more) then
        let* first := or_raise (py_index source_code_lines (Z.min (line_num - 1) 0))
                        IndexError in
        Ok (PyStr.startswith (PyStr.lstrip first) "for ")
      else Ok false in
    match looked with
    | Raise e => (out, Throw e)
    | Ok in_loop =>
        let jump_url :=
          if in_loop then file +:+ "#" +:+ pretty (line_num - 1)%Z
          else file +:+ "#" +:+ pretty line_num in
        (out ++ finding jump_url
                  ("Do not use " +:+ repr_plain test_var +:+ " in this context! (Line "
                   +:+ pretty line_num +:+ ")" +:+ newline +:+ reason_of test_var),
         Next)
    end
  else (out, Next).

(** [enumerate(l, start=1)] *)
Definition enumerate1 (l : list string) : list (Z * string) :=
  imap (fun i line => ((Z.of_nat i + 1)%Z, line)) l.

(** The search for the variables: [for line_num, line in enumerate(...)]. *)
Definition scan_variables (file source : string) : list string * signal :=
  let source_code_lines := PyStr.splitlines source in
  for_each
    (fun numbered out =>
       for_each (scan_test_var file source_code_lines numbered.1 numbered.2)
         tests_variables out)
    (enumerate1 source_code_lines) [].

(** The body of [for i in range(1, len(sys.argv))] for one file, once the
    file is read; [tree] is what [ast.parse] gives for its text. *)
Definition run_file {U : UnicodeData} (fuel : nat) (file source : string)
    (tree : node) : run_out :=
  let checked := check_functions fuel file source tree None tests in
  match run_ended checked with
  | Completed =>
      let scanned := scan_variables file source in
      {| printed := printed checked ++ scanned.1;
         run_ended := match scanned.2 with Throw e => Uncaught e | _ => Completed end |}
  | _ => checked
  end.

(** [run()] on the files of the command line, in their order: what leaves
    one file ends the run. *)
Fixpoint run {U : UnicodeData} (fuel : nat) (files : list (string * string * node))
    : run_out :=
  match files with
  | [] => {| printed := []; run_ended := Completed |}
  | (file, source, tree) :: files' =>
      let first := run_file fuel file source tree in
      match run_ended first with
      | Completed =>
          let rest := run fuel files' in
          {| printed := printed first ++ printed rest; run_ended := run_ended rest |}
      | _ => first
      end
  end.

(** ** Sources used in the examples *)

Module Examples.

(** A character database without uppercase letters beyond ASCII.  The
    examples are ASCII texts, for which no database is consulted. *)
Definition ascii_only : UnicodeData := fun _ => false.

(** The letter E with an acute accent, of the bytes 195 and 137, and a
    character database in which it is the uppercase letter beyond ASCII. *)
Definition e_acute : string :=
  String (ascii_of_nat 195) (String (ascii_of_nat 137) "").
Definition with_e_acute : UnicodeData := fun bytes => String.eqb bytes e_acute.

(** The text whose lines are [l], each ended by a line break. *)
Definition text_of (l : list string) : string :=
  foldr (fun line rest => line +:+ newline +:+ rest) "" l.

Definition def_ (nm : string) (first last : Z) (children : list node) : node :=
  Node ast_FunctionDef nm first last children.
Definition class_ (nm : string) (first last : Z) (children : list node) : node :=
  Node ast_ClassDef nm first last children.
Definition module_ (children : list node) : node :=
  Node ast_Module "" 0 0 children.

(** A class with a method and a subclass without it. *)
Definition inherit_src : string := text_of
  [ "class A:";
    "    def foo(self):";
    "        return 1";
    "class B(A):";
    "    pass" ].
Definition inherit_foo : node := def_ "foo" 2 3 [].
Definition inherit_A : node := class_ "A" 1 3 [inherit_foo].
Definition inherit_B : node := class_ "B" 4 5 [].
Definition inherit_tree : node := module_ [inherit_A; inherit_B].

(** A class that defines the same method name twice. *)
Definition twice_src : string := text_of
  [ "class A:";
    "    def foo(self):";
    "        return 1";
    "    def foo(self, v):";
    "        return v" ].
Definition twice_tree : node :=
  module_ [class_ "A" 1 5 [def_ "foo" 2 3 []; def_ "foo" 4 5 []]].

(** A method and a function that hold the same statement. *)
Definition method_src : string := text_of
  [ "class A:";
    "    def foo(self):";
    "        return 1";
    "def top():";
    "    return 1" ].
Definition method_tree : node :=
  module_ [class_ "A" 1 3 [def_ "foo" 2 3 []]; def_ "top" 4 5 []].

(** A method with a line of a bracketed expression in the first column. *)
Definition column0_src : string := text_of
  [ "class A:";
    "    def foo(self):";
    "        return (";
    "1";
    "        )" ].
Definition column0_tree : node :=
  module_ [class_ "A" 1 5 [def_ "foo" 2 5 []]].

(** A function on the source lines 10 to 12. *)
Definition ready_src : string := text_of
  [ "import discord";
    "";
    "bot = discord.Client()";
    "";
    "";
    "@bot.event";
    "async def on_message(message):";
    "    pass";
    "";
    "def on_ready():";
    "    x = 1";
    "    return x" ].
Definition ready_tree : node :=
  module_ [Node ast_AsyncFunctionDef "on_message" 7 8 []; def_ "on_ready" 10 12 []].

(** Two inheritance paths from [D] to [A]. *)
Definition diamond_src : string := text_of
  [ "class A:";
    "    pass";
    "class B(A):";
    "    pass";
    "class C(A):";
    "    pass";
    "class D(B, C):";
    "    pass" ].
Definition diamond_A : node := class_ "A" 1 2 [].
Definition diamond_B : node := class_ "B" 3 4 [].
Definition diamond_C : node := class_ "C" 5 6 [].
Definition diamond_D : node := class_ "D" 7 8 [].
Definition diamond_tree : node :=
  module_ [diamond_A; diamond_B; diamond_C; diamond_D].

(** Two classes that name each other as base. *)
Definition cycle_src : string := text_of
  [ "class A(B):";
    "    pass";
    "class B(A):";
    "    pass" ].
Definition cycle_tree : node := module_ [class_ "A" 1 2 []; class_ "B" 3 4 []].

(** A class nested in a method of a class. *)
Definition nested_inner : node := class_ "Inner" 3 4 [].
Definition nested_method : node := def_ "build" 2 4 [nested_inner].
Definition nested_tree : node := module_ [class_ "Outer" 1 4 [nested_method]].

(** A send in a loop, in a file that starts with an import. *)
Definition loop_src : string := text_of
  [ "import discord";
    "for member in members:";
    "    await member.send(text)" ].

(** A bot with the three event handlers. *)
Definition bot_src : string := text_of
  [ "for x in range(3): pass";
    "async def on_ready():";
    "    await tree.sync()";
    "async def setup_hook():";
    "    pass";
    "async def on_message(message):";
    "    await message.author.send(x)" ].
Definition bot_tree : node :=
  module_ [ Node ast_AsyncFunctionDef "on_ready" 2 3 [];
            Node ast_AsyncFunctionDef "setup_hook" 4 5 [];
            Node ast_AsyncFunctionDef "on_message" 6 7 [] ].

End Examples.

(** ** Notions of the specification *)

(** Source line [k], counted from 1. *)
Definition source_line (lines : list string) (k : Z) : option string :=
  lines !! Z.to_nat (k - 1).

(** The source lines [first] through [last], both included, counted from 1. *)
Definition lines_through (lines : list string) (first last : Z) : list string :=
  omap (source_line lines) (py_range first (last + 1)).

(** A node that name mode looks for: a definition of the given name. *)
Definition named (target : string) (n : node) : bool :=
  is_definition n && String.eqb (name n) target.

(** A method of the given name in a class body. *)
Definition method_named (target : string) (n : node) : bool :=
  is_function n && String.eqb (name n) target.

Section ParentChain.
Variables (mapping : gmap string node) (lines : list string).

(** The header line of an indexed class. *)
Definition header_line (n : node) : option string :=
py_index lines (lineno_or_1 n - 1).

(** The names a header line declares as bases, the indexed ones only. *)
Definition indexed_bases (text : string) : list string :=
List.filter (fun nm => bool_decide (is_Some (mapping !! nm)))
  (PyStr.split (str_slice text (PyStr.find text "(" + 1) (PyStr.rfind text ")")) ", ").

(** The indexed bases of the class of a name; none for a name that is not
    indexed. *)
Definition declared_parents (nm : string) : list string :=
match mapping !! nm with
| Some n =>
    match header_line n with
    | Some text => indexed_bases text
    | None => []
    end
| None => []
end.

(** The names found [k] steps of inheritance above the given names, one
    entry for every path that leads there. *)
Fixpoint generation (k : nat) (names : list string) : list string :=
match k with
| O => names
| S k' => generation k' (flat_map declared_parents names)
end.

(** Breadth-first discovery order, [depth] generations deep: the names
    themselves, then their parents, then the parents of those, and so on;
    nothing is dropped for occurring before. *)
Fixpoint breadth_first (depth : nat) (names : list string) : list string :=
match depth with
| O => []
| S d => names ++ breadth_first d (flat_map declared_parents names)
end.

(** The class nodes of a list of names. *)
Definition nodes_of (names : list string) : list node :=
omap (fun nm => mapping !! nm) names.
End ParentChain.

(** The segments of a dotted path that remain once a leading namespace
    token is stripped. *)
Definition remaining_segments (index : string) : list string :=
match PyStr.split index "." with
| first :: rest => if String.eqb first "discord" then rest else first :: rest
| [] => []
end.

(** The first segment is the namespace token itself, or does not start with
    it. *)
Definition namespace_clean (index : string) : bool :=
match PyStr.split index "." with
| first :: _ => implb (PyStr.startswith first "discord") (String.eqb first "discord")
| [] => true
end.

(** The segment starts with an uppercase letter. *)
Definition starts_upper {U : UnicodeData} (segment : string) : bool :=
match PyStr.first_char segment with
| Some ch => PyStr.isupper ch
| None => false
end.

(** The match for a definition that starts at line [L] and whose last line
    is before line [M]: the text of the source lines [L] through [M - 1],
    joined by line breaks, and [L - 1]. *)
Definition line_accounting (lines : list string) (L M : Z) : Match :=
(PyStr.join newline (lines_through lines L (M - 1)), (L - 1)%Z).

(** The methods that a class-scoped search by name yields, class by class,
    when [k] matches were yielded before the classes [classes]: the count
    is looked at between two classes. *)
Fixpoint class_scan_nodes (target : string) (count k : Z) (classes : list node)
    : list node :=
match classes with
| [] => []
| cl :: rest =>
    if (k =? count)%Z then []
    else
      let found := List.filter (method_named target) (body cl) in
      found ++ class_scan_nodes target count (k + Z.of_nat (length found)) rest
end.

(** An invariant of exact mode: one key of [already_searched] for every
    match yielded so far, and never more than [count] of them. *)
Definition counted (count : Z) (st : gen_state (gset (Z * Z))) : Prop :=
length (emitted st) = size (already_searched st)
/\ (Z.of_nat (size (already_searched st)) <= count)%Z.

(** The nodes of a tree: the root, and the children of its nodes. *)
Inductive in_tree (root : node) : node -> Prop :=
| in_tree_root : in_tree root root
| in_tree_child (n c : node) : in_tree root n -> c ∈ body n -> in_tree root c.

(** The parsers a caller gets from the constructor and keeps by reloading. *)
Inductive made : ParserV2 -> Prop :=
| made_init (source : string) (tree : node) (target : string) (c : option string)
    (ex : bool) : made (ParserV2_init source tree target c ex)
| made_reload (self : ParserV2) (target : string) (c : option string) (ex : bool) :
    made self -> made (_reload self target c ex).

(** All the definitions of a name, in traversal order, as name mode without a
    class meets them. *)
Definition all_named (self : ParserV2) : list Match :=
map (snippet (PyStr.splitlines (source_code self)))
  (List.filter (named (to_search_for self)) (walk (data self))).

(** The tree holds a definition of the name. *)
Definition defines (tree : node) (target : string) : bool :=
existsb (named target) (walk tree).

(** The tree holds the three event handlers that [run] looks for. *)
Definition has_handlers (tree : node) : bool :=
defines tree "on_ready" && defines tree "setup_hook" && defines tree "on_message".

(** The lines of a source text, as exact mode compares them. *)
Definition normalised_lines (source : string) : list string :=
PyStr.splitlines
  (PyStr.rstrip (PyStr.lstrip (PyStr.join newline (PyStr.splitlines source)))).

(** An invariant of exact mode: every match yielded so far is the whole text
    of a definition of the tree, one line of which is the query, with or
    without the white space at its ends. *)
Definition whole_definitions (target : string) (new_lines : list string)
    (tree : node) (st : gen_state (gset (Z * Z))) : Prop :=
Forall (fun m => exists f i line,
          f ∈ walk tree /\ is_definition f = true
          /\ m = (PyStr.join newline (py_slice new_lines (lineno f - 1) (end_lineno f)),
                  (lineno f - 1)%Z)
          /\ (lineno f - 1 <= i < end_lineno f)%Z
          /\ py_index new_lines i = Some line
          /\ (target = PyStr.rstrip (PyStr.lstrip line) \/ target = line))
  (emitted st).

(** The search for the variables as it would be if the line of a finding were
    always the line of the match. *)
Definition scan_variables_plain (file source : string) : list string :=
flat_map
  (fun numbered : Z * string =>
     flat_map
       (fun test_var =>
          if str_contains numbered.2 test_var
          then finding (file +:+ "#" +:+ pretty numbered.1)
                 ("Do not use " +:+ repr_plain test_var +:+ " in this context! (Line "
                  +:+ pretty numbered.1 +:+ ")" +:+ newline +:+ reason_of test_var)
          else [])
       tests_variables)
  (enumerate1 (PyStr.splitlines source)).

(** * Properties *)

(** ** The string and sequence operations on examples *)

Example splitlines_ex :
  PyStr.splitlines (String "010" ("a" +:+ String "013" (String "010" ("b" +:+ String "010" ""))))
  = [""; "a"; "b"].
Proof. reflexivity. Qed.

Example split_ex : PyStr.split "A, B,C" ", " = ["A"; "B,C"].
Proof. reflexivity. Qed.

Example find_ex : PyStr.find "class B(A, C()):" "(" = 7%Z /\ PyStr.rfind "class B(A, C()):" ")" = 14%Z
  /\ PyStr.find "class A:" "(" = (-1)%Z.
Proof. repeat split; reflexivity. Qed.

Example slice_ex : str_slice "class A:" 0 (-1) = "class A" /\ py_slice [1;2;3;4] 1 3 = [2;3]
  /\ py_slice [1;2;3;4] 2 9 = [3;4] /\ py_index [1;2;3] (-1) = Some 3.
Proof. repeat split; reflexivity. Qed.

(** ** The traversal visits every node *)

Lemma forest_size_app (l1 l2 : list node) :
  forest_size (l1 ++ l2) = forest_size l1 + forest_size l2.
Proof.
  induction l1 as [|n l1 IH]; simpl; [reflexivity|].
  rewrite IH. lia.
Qed.

Lemma node_size_body (n : node) : node_size n = S (forest_size (body n)).
Proof. destruct n; reflexivity. Qed.

(** With as much fuel as the queue holds nodes, the walk stops because the
    queue is empty, and it has listed all of them. *)
Lemma walk_queue_length (fuel : nat) (todo : list node) :
  forest_size todo <= fuel -> length (walk_queue fuel todo) = forest_size todo.
Proof.
  revert todo. induction fuel as [|fuel IH]; intros [|n todo] Hle; simpl in *;
    try reflexivity.
  - pose proof (node_size_body n). lia.
  - rewrite IH; rewrite forest_size_app, (node_size_body n) in *; lia.
Qed.

Lemma walk_length (root : node) : length (walk root) = node_size root.
Proof.
  unfold walk. rewrite walk_queue_length; simpl; lia.
Qed.

(** ** Loops *)

Section LoopFacts.
Context {A St : Type}.
Implicit Types (f : A -> St -> St * signal) (xs : list A) (st : St).

(** What every round keeps, the loop keeps. *)
Lemma for_each_invariant (P : St -> Prop) f xs st :
  P st ->
  (forall x s, x ∈ xs -> P s -> P (f x s).1) ->
  P (for_each f xs st).1.
Proof.
  revert st. induction xs as [|x xs IH]; intros st Hst Hf; simpl; [exact Hst|].
  pose proof (Hf x st (list_elem_of_here _ _) Hst) as Hx.
  destruct (f x st) as [st' [| |e]]; simpl in *; try exact Hx.
  apply IH; [exact Hx|].
  intros y s Hy. apply Hf. by apply list_elem_of_further.
Qed.
End LoopFacts.

(** ** Slices and line numbers *)

Lemma take_drop_lookups {A} (l : list A) (a m : nat) :
  take m (drop a l) = omap (fun k => l !! k) (seq a m).
Proof.
  revert a. induction m as [|m IH]; intros a; [reflexivity|].
  cbn [seq]. change (omap (fun k => l !! k) (a :: seq (S a) m)) with
    (match l !! a with Some x => x :: omap (fun k => l !! k) (seq (S a) m) | None => omap (fun k => l !! k) (seq (S a) m) end).
  rewrite <- IH.
  destruct (l !! a) as [x|] eqn:Hx.
  - by rewrite (drop_S _ _ _ Hx).
  - apply lookup_ge_None in Hx.
    rewrite !drop_ge by lia. by rewrite !take_nil.
Qed.

(** A slice whose bounds are not negative is the plain sub-list, the clamping
    of Python included. *)
Lemma py_slice_take_drop {A} (l : list A) (a b : Z) :
  (0 <= a)%Z -> (0 <= b)%Z ->
  py_slice l a b = take (Z.to_nat (b - a)) (drop (Z.to_nat a) l).
Proof.
  intros Ha Hb. unfold py_slice, slice_bound.
  destruct (Z.ltb_spec a 0); [lia|]. destruct (Z.ltb_spec b 0); [lia|].
  destruct (Z.le_gt_cases a (Z.of_nat (length l))) as [Hal|Hal].
  - rewrite (Z.min_l a) by lia.
    destruct (Z.le_gt_cases b (Z.of_nat (length l))) as [Hbl|Hbl].
    + by rewrite (Z.min_l b) by lia.
    + rewrite (Z.min_r b) by lia.
      rewrite !take_ge; [reflexivity| |]; rewrite length_drop; lia.
  - rewrite (Z.min_r a) by lia.
    rewrite !drop_ge by lia. by rewrite !take_nil.
Qed.

Lemma py_slice_lines_through (lines : list string) (first last : Z) :
  (1 <= first <= last)%Z ->
  py_slice lines (first - 1) last = lines_through lines first last.
Proof.
  intros H. rewrite py_slice_take_drop by lia. rewrite take_drop_lookups.
  unfold lines_through, py_range, source_line.
  replace (Z.to_nat (last + 1 - first)) with (Z.to_nat (last - (first - 1))) by lia.
  generalize (Z.to_nat (last - (first - 1))) as m. intros m.
  replace (seq (Z.to_nat (first - 1)) m)
    with (Nat.add (Z.to_nat (first - 1)) <$> seq 0 m)
    by (rewrite fmap_add_seq; f_equal; lia).
  change (map ?f ?l) with (f <$> l).
  apply list_omap_ext, Forall2_fmap, Forall_Forall2_diag, Forall_forall.
  intros i _. f_equal. lia.
Qed.

(** ** The Entity Index *)

(** A parser made or reloaded for name mode holds the index of its tree. *)
Lemma ParserV2_init_index (source : string) (tree : node) (target : string)
    (c : option string) :
  _node_mapping (ParserV2_init source tree target c false)
  = Some (build_node_mapping tree).
Proof. reflexivity. Qed.

Lemma _reload_index (self : ParserV2) (target : string) (c : option string) :
  _node_mapping (_reload self target c false) = Some (build_node_mapping (data self)).
Proof. reflexivity. Qed.

Lemma index_fold_lookup (c : string) (l : list node) (m : gmap string node) :
  foldl (fun m n => if is_ClassDef n then <[name n := n]> m else m) m l !! c
  = match last (List.filter (fun n => is_ClassDef n && String.eqb (name n) c) l) with
    | Some n => Some n
    | None => m !! c
    end.
Proof.
  revert m. induction l as [|x l IH]; intros m; [reflexivity|].
  cbn [foldl List.filter]. rewrite IH.
  destruct (is_ClassDef x); cbn [andb]; [|reflexivity].
  destruct (String.eqb_spec (name x) c) as [Hc|Hc].
  - rewrite last_cons. destruct (last _); [reflexivity|].
    rewrite <- Hc. apply lookup_insert_eq.
  - destruct (last _); [reflexivity|]. by apply lookup_insert_ne.
Qed.

(** The index maps a name to the last class of that name in traversal
    order, and to nothing when there is none. *)
Lemma build_node_mapping_lookup (tree : node) (c : string) :
  build_node_mapping tree !! c
  = last (List.filter (fun n => is_ClassDef n && String.eqb (name n) c) (walk tree)).
Proof.
  unfold build_node_mapping. rewrite index_fold_lookup.
  by destruct (last _).
Qed.

(** ** Name mode *)

Lemma for_each_never_throws {A St} (f : A -> St -> St * signal) xs st :
  (forall x s e, (f x s).2 <> Throw e) ->
  forall e, (for_each f xs st).2 <> Throw e.
Proof.
  intros Hf. revert st. induction xs as [|x xs IH]; intros st e; simpl; [discriminate|].
  pose proof (Hf x st) as Hx.
  destruct (f x st) as [st' [| |e']]; simpl in *; [apply IH|discriminate|apply Hx].
Qed.

Lemma finish_returned {X} (r : gen_state X * signal) :
  (forall e, r.2 <> Throw e) ->
  finish r = {| yielded := emitted r.1; ended := Returned |}.
Proof.
  intros H. unfold finish. destruct r as [st [| |e]]; simpl in *; try reflexivity.
  by destruct (H e).
Qed.

Section NameModeFacts.
Variables (target : string) (count : Z) (lines : list string).

(** The scan of one class body yields every method of the name and
    counts them; it never looks at [count]. *)
Lemma class_body_scan (items : list node) (st : gen_state Z) :
  for_each (class_body_item target lines) items st =
  ({| already_searched :=
        (already_searched st + Z.of_nat (length (List.filter (method_named target) items)))%Z;
      emitted :=
        emitted st ++ map (snippet lines) (List.filter (method_named target) items) |},
   Next).
Proof.
  revert st. induction items as [|x items IH]; intros st; simpl.
  - destruct st; simpl. by rewrite Z.add_0_r, app_nil_r.
  - unfold class_body_item at 1. fold (method_named target x).
    destruct (method_named target x); rewrite IH; simpl; [|reflexivity].
    rewrite <- app_assoc. do 2 f_equal. lia.
Qed.

Lemma class_node_never_throws n st e :
  (class_node target count lines n st).2 <> Throw e.
Proof.
  unfold class_node. destruct (_ =? _)%Z; [discriminate|].
  by rewrite class_body_scan.
Qed.

Lemma walk_node_never_throws n st e :
  (walk_node target count lines n st).2 <> Throw e.
Proof.
  unfold walk_node. destruct (_ =? _)%Z; [discriminate|].
  destruct (_ && _); discriminate.
Qed.

(** The scan of the whole tree yields the nodes of the name in traversal
    order until [count] of them are out. *)
Lemma walk_scan (xs : list node) (st : gen_state Z) :
  (0 <= already_searched st <= count)%Z ->
  emitted (for_each (walk_node target count lines) xs st).1 =
  emitted st ++
    take (Z.to_nat (count - already_searched st))
      (map (snippet lines) (List.filter (named target) xs)).
Proof.
  revert st. induction xs as [|x xs IH]; intros st Hst; simpl.
  - by rewrite take_nil, app_nil_r.
  - unfold walk_node at 1. fold (named target x).
    destruct (Z.eqb_spec (already_searched st) count) as [->|Hne]; simpl.
    + by rewrite Z.sub_diag, take_0, app_nil_r.
    + destruct (named target x); simpl.
      * rewrite IH by (simpl; lia). simpl. rewrite <- app_assoc. f_equal.
        replace (Z.to_nat (count - already_searched st))
          with (S (Z.to_nat (count - (already_searched st + 1)))) by lia.
        reflexivity.
      * by apply IH.
Qed.

End NameModeFacts.

(** In name mode without a class, the generator returns after yielding the
    first [count] definitions of the name, in traversal order. *)
Lemma parse_data_by_name (fuel : nat) (self : ParserV2) (count : Z) (allow : bool) :
  exact self = false -> cls self = None -> (0 <= count)%Z ->
  parse_data fuel self count allow =
  {| yielded :=
       take (Z.to_nat count)
         (map (snippet (PyStr.splitlines (source_code self)))
            (List.filter (named (to_search_for self)) (walk (data self))));
     ended := Returned |}.
Proof.
  intros Hex Hcls Hcount. unfold parse_data. rewrite Hex, Hcls.
  rewrite finish_returned
    by (apply for_each_never_throws; intros; apply walk_node_never_throws).
  rewrite walk_scan by (simpl; lia). simpl. by rewrite Z.sub_0_r.
Qed.

(** C8.  In name mode, an enclosing class name that is not a key of the
    Entity Index makes [parse_data] return at once: nothing is yielded and
    nothing is raised. *)
Theorem parse_data_unknown_class (fuel : nat) (self : ParserV2) (count : Z)
    (allow : bool) (c : string) (mapping : gmap string node) :
  exact self = false ->
  cls self = Some c ->
  _node_mapping self = Some mapping ->
  mapping !! c = None ->
  parse_data fuel self count allow = {| yielded := []; ended := Returned |}.
Proof.
  intros Hex Hcls Hmap Hc. unfold parse_data. by rewrite Hex, Hcls, Hmap, Hc.
Qed.

Lemma parse_data_unknown_class_witness :
  parse_data 3 (ParserV2_init Examples.inherit_src Examples.inherit_tree "foo" (Some "C") false)
    1 true
  = {| yielded := []; ended := Returned |}.
Proof.
  apply (parse_data_unknown_class 3 _ 1 true "C" (build_node_mapping Examples.inherit_tree));
    reflexivity.
Defined.

(** A class-scoped query that does not follow ancestors yields every method
    of the name in the class body, whatever [count] is, as long as it is
    not [0]: the counter is compared with [count] once, before the body. *)
Lemma parse_data_class_scope_all (fuel : nat) (self : ParserV2) (count : Z)
    (c : string) (mapping : gmap string node) (n : node) :
  exact self = false ->
  cls self = Some c ->
  _node_mapping self = Some mapping ->
  mapping !! c = Some n ->
  count <> 0%Z ->
  parse_data fuel self count false =
  {| yielded :=
       map (snippet (PyStr.splitlines (source_code self)))
         (List.filter (method_named (to_search_for self)) (body n));
     ended := Returned |}.
Proof.
  intros Hex Hcls Hmap Hc Hcount. unfold parse_data.
  rewrite Hex, Hcls, Hmap, Hc. simpl. unfold class_node at 1. simpl.
  rewrite class_body_scan. by destruct count.
Qed.

(** C1.  A class whose body defines [foo] twice, queried for [foo] in name
    mode with the class set and [count = 1]: two matches are yielded. *)
Theorem class_scope_exceeds_count (fuel : nat) (allow : bool) :
  parse_data fuel
    (ParserV2_init Examples.twice_src Examples.twice_tree "foo" (Some "A") false) 1 allow
  = {| yielded :=
         [(PyStr.join newline ["    def foo(self):"; "        return 1"], 1%Z);
          (PyStr.join newline ["    def foo(self, v):"; "        return v"], 3%Z)];
       ended := Returned |}.
Proof. destruct allow, fuel; vm_compute; reflexivity. Qed.

(** ** Exact mode *)

Section ExactModeFacts.
Variables (target : string) (count : Z) (new_lines : list string).

Lemma counted_add (st : gen_state (gset (Z * Z))) (key : Z * Z) (m : Match) :
  counted count st ->
  Z.of_nat (size (already_searched st)) <> count ->
  key ∉ already_searched st ->
  counted count {| already_searched := {[ key ]} ∪ already_searched st;
             emitted := emitted st ++ [m] |}.
Proof.
  intros [Hlen Hle] Hne Hkey. unfold counted; simpl.
  rewrite size_union by set_solver. rewrite size_singleton, length_app. simpl.
  split; lia.
Qed.

Lemma exact_func_line_counted func_node i st :
  counted count st -> counted count (exact_func_line target count new_lines func_node i st).1.
Proof.
  intros H. unfold exact_func_line.
  destruct (Z.eqb_spec (Z.of_nat (size (already_searched st))) count); [exact H|].
  case_bool_decide; [exact H|].
  destruct (py_index new_lines i); [|exact H].
  destruct (String.eqb target s); [|exact H].
  by apply counted_add.
Qed.

Lemma exact_class_child_counted start end_ func_node st :
  counted count st ->
  counted count (exact_class_child target count new_lines start end_ func_node st).1.
Proof.
  intros H. unfold exact_class_child. destruct (_ && _); [|exact H].
  apply (for_each_invariant (counted count)); [exact H|].
  intros; by apply exact_func_line_counted.
Qed.

Lemma exact_node_line_counted n i st :
  counted count st -> counted count (exact_node_line target count new_lines n i st).1.
Proof.
  intros H. unfold exact_node_line.
  destruct (py_index new_lines i); [|exact H].
  destruct (String.eqb target _); [|exact H].
  destruct (_ && _).
  - apply (for_each_invariant (counted count)); [exact H|].
    intros; by apply exact_class_child_counted.
  - destruct (Z.eqb_spec (Z.of_nat (size (already_searched st))) count); [exact H|].
    case_bool_decide; [exact H|].
    by apply counted_add.
Qed.

Lemma exact_node_counted n st :
  counted count st -> counted count (exact_node target count new_lines n st).1.
Proof.
  intros H. unfold exact_node. destruct (is_definition n); [|exact H].
  apply (for_each_invariant (counted count)); [exact H|].
  intros; by apply exact_node_line_counted.
Qed.
End ExactModeFacts.

(** In exact mode no more than [count] matches are yielded. *)
Lemma parse_data_exact_bounded (fuel : nat) (self : ParserV2) (count : Z) (allow : bool) :
  exact self = true -> (0 <= count)%Z ->
  (Z.of_nat (length (yielded (parse_data fuel self count allow))) <= count)%Z.
Proof.
  intros Hex Hcount. unfold parse_data. rewrite Hex. unfold finish; simpl.
  match goal with
  | |- context [for_each ?f ?xs ?st] =>
      assert (counted count (for_each f xs st).1) as [Hlen Hle]
  end.
  { apply (for_each_invariant (counted count)).
    - split; [reflexivity|]. cbn [already_searched].
      rewrite size_empty. lia.
    - intros; by apply exact_node_counted. }
  lia.
Qed.

(** ** The parent chain resolver *)

Section ResolverFacts.
Variables (self : ParserV2) (mapping : gmap string node) (lines : list string).
Hypothesis Hmapping : _node_mapping self = Some mapping.

Lemma filter_parent_classes_indexed (text : string) :
  filter_parent_classes self text = Ok (indexed_bases mapping text).
Proof. unfold filter_parent_classes. by rewrite Hmapping. Qed.

Lemma parent_queue_loop_nil fuel acc :
  parent_queue_loop fuel self lines [] acc = Some (Ok acc).
Proof. by destruct fuel. Qed.

(** More rounds than needed change nothing. *)
Lemma parent_queue_loop_more fuel fuel' queue acc r :
  parent_queue_loop fuel self lines queue acc = Some r ->
  fuel <= fuel' ->
  parent_queue_loop fuel' self lines queue acc = Some r.
Proof.
  revert fuel' queue acc. induction fuel as [|fuel IH]; intros fuel' queue acc Hr Hle.
  - destruct queue; [|discriminate]. by rewrite parent_queue_loop_nil.
  - destruct fuel' as [|fuel']; [lia|].
    destruct queue as [|a queue]; [exact Hr|]. simpl in *.
    rewrite Hmapping in *.
    destruct (mapping !! a) as [n|]; [|apply IH; [exact Hr|lia]].
    destruct (py_index lines _); [|exact Hr].
    destruct (filter_parent_classes self s); [|exact Hr].
    apply IH; [exact Hr|lia].
Qed.

(** What the loop returns starts with the nodes it was given. *)
Lemma parent_queue_loop_extends fuel queue acc r :
  parent_queue_loop fuel self lines queue acc = Some (Ok r) ->
  exists rest, r = acc ++ rest.
Proof.
  revert queue acc. induction fuel as [|fuel IH]; intros [|a queue] acc Hr;
    simpl in Hr; try discriminate.
  - injection Hr as <-. exists []. by rewrite app_nil_r.
  - injection Hr as <-. exists []. by rewrite app_nil_r.
  - rewrite Hmapping in Hr.
    destruct (mapping !! a) as [n|]; [|by apply IH in Hr].
    destruct (py_index lines _); [|discriminate].
    destruct (filter_parent_classes self s); [|discriminate].
    apply IH in Hr as [rest ->]. exists (n :: rest). by rewrite <- app_assoc.
Qed.

(** The first name of the queue, when it is indexed, gives the first node
    that is added. *)
Lemma parent_queue_loop_first fuel a queue acc n r :
  mapping !! a = Some n ->
  parent_queue_loop fuel self lines (a :: queue) acc = Some (Ok r) ->
  exists rest, r = acc ++ n :: rest.
Proof.
  intros Ha Hr. destruct fuel as [|fuel]; [discriminate|]. simpl in Hr.
  rewrite Hmapping, Ha in Hr.
  destruct (py_index lines _); [|discriminate].
  destruct (filter_parent_classes self s); [|discriminate].
  apply parent_queue_loop_extends in Hr as [rest ->].
  exists rest. by rewrite <- app_assoc.
Qed.

(** Every indexed class has its header line in the source. *)
Hypothesis Hheaders :
  forall nm n, mapping !! nm = Some n -> is_Some (header_line lines n).

(** One round: the first name leaves the queue, its node joins the result
    and its indexed bases join the queue at the far end. *)
Lemma parent_queue_loop_round fuel a queue acc :
  parent_queue_loop (S fuel) self lines (a :: queue) acc =
  parent_queue_loop fuel self lines
    (queue ++ declared_parents mapping lines a) (acc ++ nodes_of mapping [a]).
Proof.
  simpl. rewrite Hmapping. unfold declared_parents, nodes_of. simpl.
  destruct (mapping !! a) as [n|] eqn:Ha; simpl.
  - destruct (Hheaders a n Ha) as [text Htext]. unfold header_line in Htext.
    rewrite Htext. unfold header_line. rewrite Htext.
    by rewrite filter_parent_classes_indexed.
  - by rewrite !app_nil_r.
Qed.

Lemma parent_queue_loop_batch fuel front back acc r :
  parent_queue_loop fuel self lines
    (back ++ flat_map (declared_parents mapping lines) front)
    (acc ++ nodes_of mapping front) = Some r ->
  parent_queue_loop (length front + fuel) self lines (front ++ back) acc = Some r.
Proof.
  revert back acc. induction front as [|a front IH]; intros back acc Hr.
  - simpl in *. by rewrite !app_nil_r in Hr.
  - cbn [length Nat.add app]. rewrite parent_queue_loop_round.
    rewrite <- app_assoc. apply IH.
    unfold nodes_of in *. rewrite <- !app_assoc, <- omap_app. exact Hr.
Qed.

(** The queue discipline computes the breadth-first order. *)
Lemma parent_queue_loop_breadth_first depth seeds acc :
  generation mapping lines depth seeds = [] ->
  parent_queue_loop (length (breadth_first mapping lines depth seeds)) self lines seeds acc
  = Some (Ok (acc ++ nodes_of mapping (breadth_first mapping lines depth seeds))).
Proof.
  revert seeds acc. induction depth as [|depth IH]; intros seeds acc Hend; simpl in *.
  - subst seeds. by rewrite app_nil_r.
  - rewrite length_app.
    pose proof (parent_queue_loop_batch
                  (length (breadth_first mapping lines depth
                             (flat_map (declared_parents mapping lines) seeds)))
                  seeds [] acc) as Hbatch.
    rewrite app_nil_r in Hbatch. apply Hbatch. simpl.
    rewrite IH by exact Hend.
    unfold nodes_of. by rewrite omap_app, app_assoc.
Qed.
End ResolverFacts.

(** ** The text between the parentheses of a header line *)

Lemma append_cons (ch : ascii) (a b : string) :
  String ch a +:+ b = String ch (a +:+ b).
Proof. reflexivity. Qed.

Lemma append_nil (b : string) : "" +:+ b = b.
Proof. reflexivity. Qed.

Lemma append_assoc (a b c : string) : (a +:+ b) +:+ c = a +:+ (b +:+ c).
Proof.
  induction a as [|ch a IH]; [reflexivity|].
  by rewrite !append_cons, IH.
Qed.

Lemma append_length (a b : string) :
  String.length (a +:+ b) = String.length a + String.length b.
Proof.
  induction a as [|ch a IH]; [reflexivity|].
  rewrite append_cons. simpl. by rewrite IH.
Qed.

Lemma list_ascii_of_string_app (a b : string) :
  String.list_ascii_of_string (a +:+ b)
  = String.list_ascii_of_string a ++ String.list_ascii_of_string b.
Proof.
  induction a as [|ch a IH]; [reflexivity|].
  rewrite append_cons. simpl. by rewrite IH.
Qed.

Lemma list_ascii_of_string_length (a : string) :
  length (String.list_ascii_of_string a) = String.length a.
Proof. induction a as [|ch a IH]; simpl; [reflexivity|]. by rewrite IH. Qed.

Lemma prefix_char (c d : ascii) (s : string) :
  String.prefix (String c "") (String d s) = Ascii.eqb d c.
Proof.
  simpl. destruct (ascii_dec c d) as [->|Hne].
  - rewrite Ascii.eqb_refl. by destruct s.
  - symmetry. apply Ascii.eqb_neq. congruence.
Qed.

Lemma find_from_first (c : ascii) (pre rest : string) (i : Z) :
  PyStr.mem_char c pre = false ->
  PyStr.find_from (String c "") (pre +:+ String c rest) i
  = (i + Z.of_nat (String.length pre))%Z.
Proof.
  revert i. induction pre as [|d pre IH]; intros i Hpre.
  - rewrite append_nil. cbn [PyStr.find_from]. rewrite prefix_char, Ascii.eqb_refl.
    simpl. lia.
  - rewrite append_cons. cbn [PyStr.find_from]. rewrite prefix_char.
    simpl in Hpre. rewrite Ascii.eqb_sym.
    destruct (Ascii.eqb c d); [discriminate|].
    rewrite IH by exact Hpre. cbn [String.length]. lia.
Qed.

Lemma rfind_from_absent (c : ascii) (s : string) (i : Z) :
  PyStr.mem_char c s = false ->
  PyStr.rfind_from (String c "") s i = (-1)%Z.
Proof.
  revert i. induction s as [|d s IH]; intros i Hs; [reflexivity|].
  cbn [PyStr.rfind_from]. simpl in Hs.
  destruct (Ascii.eqb c d) eqn:Hcd; [discriminate|].
  rewrite IH by exact Hs. rewrite prefix_char, Ascii.eqb_sym, Hcd. reflexivity.
Qed.

Lemma rfind_from_last (c : ascii) (x post : string) (i : Z) :
  (0 <= i)%Z ->
  PyStr.mem_char c post = false ->
  PyStr.rfind_from (String c "") (x +:+ String c post) i
  = (i + Z.of_nat (String.length x))%Z.
Proof.
  revert i. induction x as [|d x IH]; intros i Hi Hpost.
  - rewrite append_nil. cbn [PyStr.rfind_from].
    rewrite rfind_from_absent by exact Hpost.
    rewrite prefix_char, Ascii.eqb_refl. simpl. lia.
  - rewrite append_cons. cbn [PyStr.rfind_from].
    rewrite IH by (done || lia).
    destruct (Z.leb_spec 0 (i + 1 + Z.of_nat (String.length x))); [|lia].
    cbn [String.length]. lia.
Qed.

Lemma str_slice_middle (x mid y : string) :
  str_slice (x +:+ mid +:+ y) (Z.of_nat (String.length x))
    (Z.of_nat (String.length x) + Z.of_nat (String.length mid))
  = mid.
Proof.
  unfold str_slice. rewrite py_slice_take_drop by lia.
  rewrite !list_ascii_of_string_app.
  rewrite drop_app_length' by (rewrite list_ascii_of_string_length; lia).
  rewrite take_app_length' by (rewrite list_ascii_of_string_length; lia).
  apply String.string_of_list_ascii_of_string.
Qed.

(** On a header line with an opening parenthesis, [mid], and a closing
    parenthesis that is the last one, the text that is split is [mid]: what
    stands between the first opening and the last closing parenthesis. *)
Lemma between_parentheses (pre mid post : string) :
  PyStr.mem_char "(" pre = false ->
  PyStr.mem_char ")" post = false ->
  let text := pre +:+ String "(" (mid +:+ String ")" post) in
  str_slice text (PyStr.find text "(" + 1) (PyStr.rfind text ")") = mid.
Proof.
  intros Hpre Hpost text. unfold PyStr.find, PyStr.rfind.
  unfold text at 2. rewrite find_from_first by exact Hpre.
  assert (text = (pre +:+ "(") +:+ mid +:+ String ")" post) as Hshape.
  { unfold text. by rewrite append_assoc. }
  assert (text = ((pre +:+ "(") +:+ mid) +:+ String ")" post) as Hlast.
  { rewrite Hshape. symmetry. apply append_assoc. }
  rewrite Hlast at 2. rewrite rfind_from_last by (done || lia).
  rewrite Hshape.
  replace (0 + Z.of_nat (String.length pre) + 1)%Z
    with (Z.of_nat (String.length (pre +:+ "(")))
    by (rewrite append_length; simpl; lia).
  replace (0 + Z.of_nat (String.length ((pre +:+ "(") +:+ mid)))%Z
    with (Z.of_nat (String.length (pre +:+ "(")) + Z.of_nat (String.length mid))%Z
    by (rewrite (append_length (pre +:+ "(") mid); lia).
  apply str_slice_middle.
Qed.

Lemma indexed_bases_between (mapping : gmap string node) (pre mid post : string) :
  PyStr.mem_char "(" pre = false ->
  PyStr.mem_char ")" post = false ->
  indexed_bases mapping (pre +:+ String "(" (mid +:+ String ")" post))
  = List.filter (fun nm => bool_decide (is_Some (mapping !! nm))) (PyStr.split mid ", ").
Proof.
  intros Hpre Hpost. unfold indexed_bases.
  by rewrite (between_parentheses pre mid post Hpre Hpost).
Qed.

(** C9.  When the inheritance above the seed names ends after [depth]
    generations, [get_all_parent_classes] returns the nodes it was given
    (the original class node) followed by the class nodes of the ancestors
    in breadth-first discovery order, a node once for every path that leads
    to it; the bases of a class are read off its header line, as the text
    between the first opening and the last closing parenthesis split at
    [", "], and only the indexed names are kept. *)
Theorem get_all_parent_classes_breadth_first
    (self : ParserV2) (mapping : gmap string node) (current_nodes : list node)
    (seeds : list string) (depth fuel : nat) :
  _node_mapping self = Some mapping ->
  map_Forall (fun _ n => is_Some (header_line (PyStr.splitlines (source_code self)) n))
    mapping ->
  generation mapping (PyStr.splitlines (source_code self)) depth seeds = [] ->
  length (breadth_first mapping (PyStr.splitlines (source_code self)) depth seeds) <= fuel ->
  get_all_parent_classes fuel self seeds current_nodes
  = Some (Ok (current_nodes ++
              nodes_of mapping
                (breadth_first mapping (PyStr.splitlines (source_code self)) depth seeds)))
  /\ forall pre mid post,
       PyStr.mem_char "(" pre = false ->
       PyStr.mem_char ")" post = false ->
       filter_parent_classes self (pre +:+ String "(" (mid +:+ String ")" post))
       = Ok (List.filter (fun nm => bool_decide (is_Some (mapping !! nm)))
               (PyStr.split mid ", ")).
Proof.
  intros Hmap Hheaders Hend Hfuel. split.
  - unfold get_all_parent_classes.
    eapply parent_queue_loop_more; [exact Hmap| |exact Hfuel].
    by apply parent_queue_loop_breadth_first.
  - intros pre mid post Hpre Hpost.
    rewrite (filter_parent_classes_indexed self mapping Hmap).
    by rewrite indexed_bases_between.
Qed.

(** [D(B, C)] with [B(A)] and [C(A)]: the ancestors of [D] are [B], [C] and
    then [A] twice. *)
Lemma get_all_parent_classes_breadth_first_witness :
  get_all_parent_classes 4
    (ParserV2_init Examples.diamond_src Examples.diamond_tree "foo" (Some "D") false)
    ["B"; "C"] [Examples.diamond_D]
  = Some (Ok [Examples.diamond_D; Examples.diamond_B; Examples.diamond_C;
              Examples.diamond_A; Examples.diamond_A])
  /\ filter_parent_classes
       (ParserV2_init Examples.diamond_src Examples.diamond_tree "foo" (Some "D") false)
       "class D(B, C):"
     = Ok ["B"; "C"].
Proof.
  pose proof (get_all_parent_classes_breadth_first
    (ParserV2_init Examples.diamond_src Examples.diamond_tree "foo" (Some "D") false)
    (build_node_mapping Examples.diamond_tree) [Examples.diamond_D] ["B"; "C"] 2 4
    eq_refl) as H.
  destruct H as [Hrun Htext].
  - apply map_Forall_to_list. vm_compute.
    repeat (apply Forall_cons; split; [eexists; reflexivity|]). apply Forall_nil_2.
  - reflexivity.
  - vm_compute. lia.
  - split; [exact Hrun|].
    exact (Htext "class D" "B, C" ":" eq_refl eq_refl).
Defined.

(** ** Class scope and ancestors *)

(** Once the counter has reached [count], the scan of further classes
    yields nothing more. *)
Lemma class_scan_full (target : string) (count : Z) (lines : list string)
    (nodes : list node) (st : gen_state Z) :
  already_searched st = count ->
  finish (for_each (class_node target count lines) nodes st)
  = {| yielded := emitted st; ended := Returned |}.
Proof.
  intros Hfull. destruct nodes as [|n nodes]; [reflexivity|].
  simpl. unfold class_node. by rewrite Hfull, Z.eqb_refl.
Qed.

(** C5.  Class [b] is declared with the one indexed base [a] and has no
    method [foo]; class [a] has one; the inheritance above [a] ends after
    [depth] generations.  With ancestor search the query ([foo], class [b],
    [count = 1]) yields exactly the [foo] of [a]; without it nothing is
    yielded. *)
Theorem inherited_method_found (fuel depth : nat) (self : ParserV2) (a b : string)
    (mapping : gmap string node) (node_a node_b foo_a : node) (header_b : string) :
  exact self = false ->
  cls self = Some b ->
  _node_mapping self = Some mapping ->
  mapping !! b = Some node_b ->
  mapping !! a = Some node_a ->
  py_index (PyStr.splitlines (source_code self)) (lineno node_b - 1) = Some header_b ->
  indexed_bases mapping header_b = [a] ->
  map_Forall (fun _ n => is_Some (header_line (PyStr.splitlines (source_code self)) n))
    mapping ->
  generation mapping (PyStr.splitlines (source_code self)) depth [a] = [] ->
  length (breadth_first mapping (PyStr.splitlines (source_code self)) depth [a]) <= fuel ->
  List.filter (method_named (to_search_for self)) (body node_b) = [] ->
  List.filter (method_named (to_search_for self)) (body node_a) = [foo_a] ->
  parse_data fuel self 1 true
  = {| yielded := [snippet (PyStr.splitlines (source_code self)) foo_a];
       ended := Returned |}
  /\ parse_data fuel self 1 false = {| yielded := []; ended := Returned |}.
Proof.
  intros Hex Hcls Hmap Hb Ha Hheader Hbases Hheaders Hend Hfuel Hnone Hone. split.
  - pose proof (parent_queue_loop_more self mapping _ Hmap _ fuel _ [node_b] _
                  (parent_queue_loop_breadth_first self mapping _ Hmap Hheaders
                     depth [a] [node_b] Hend) Hfuel) as Hnodes.
    unfold parse_data.
    rewrite Hex, Hcls, Hmap, Hb, Hheader.
    rewrite (filter_parent_classes_indexed self mapping Hmap), Hbases.
    unfold get_all_parent_classes. rewrite Hnodes.
    destruct (parent_queue_loop_first self mapping _ Hmap _ _ _ _ _ _ Ha Hnodes)
      as [rest ->].
    cbn [app for_each]. unfold class_node at 1. cbn [already_searched Z.eqb].
    rewrite class_body_scan, Hnone. cbn [length map app already_searched emitted].
    unfold class_node at 1. cbn [already_searched Z.eqb Z.add Z.of_nat].
    rewrite class_body_scan, Hone. cbn [length map app already_searched emitted].
    change (0 + Z.of_nat 0 =? 1)%Z with false. cbv iota beta.
    by rewrite class_scan_full.
  - rewrite (parse_data_class_scope_all fuel self 1 b mapping node_b) by done.
    by rewrite Hnone.
Qed.

(** [class A] with [foo], [class B(A)] without. *)
Lemma inherited_method_found_witness :
  parse_data 1
    (ParserV2_init Examples.inherit_src Examples.inherit_tree "foo" (Some "B") false) 1 true
  = {| yielded :=
         [(PyStr.join newline ["    def foo(self):"; "        return 1"], 1%Z)];
       ended := Returned |}
  /\ parse_data 1
       (ParserV2_init Examples.inherit_src Examples.inherit_tree "foo" (Some "B") false) 1 false
     = {| yielded := []; ended := Returned |}.
Proof.
  refine (inherited_method_found 1 1
    (ParserV2_init Examples.inherit_src Examples.inherit_tree "foo" (Some "B") false)
    "A" "B" (build_node_mapping Examples.inherit_tree)
    Examples.inherit_A Examples.inherit_B Examples.inherit_foo "class B(A):"
    eq_refl eq_refl eq_refl eq_refl eq_refl eq_refl eq_refl _ eq_refl _ eq_refl eq_refl).
  - apply map_Forall_to_list. vm_compute.
    repeat (apply Forall_cons; split; [eexists; reflexivity|]). apply Forall_nil_2.
  - vm_compute. lia.
Defined.

(** ** A cycle of base classes *)

(** While the resolver has not finished, nothing is yielded. *)
Lemma parse_data_unfinished (fuel : nat) (self : ParserV2) (count : Z) (c : string)
    (mapping : gmap string node) (n : node) (header : string) :
  exact self = false ->
  cls self = Some c ->
  _node_mapping self = Some mapping ->
  mapping !! c = Some n ->
  py_index (PyStr.splitlines (source_code self)) (lineno n - 1) = Some header ->
  get_all_parent_classes fuel self (indexed_bases mapping header) [n] = None ->
  parse_data fuel self count true = {| yielded := []; ended := Unfinished |}.
Proof.
  intros Hex Hcls Hmap Hc Hheader Hloop. unfold parse_data.
  rewrite Hex, Hcls, Hmap, Hc, Hheader.
  by rewrite (filter_parent_classes_indexed self mapping Hmap), Hloop.
Qed.

(** [class A(B)] and [class B(A)]: the queue of the resolver is never
    empty, whatever the number of rounds. *)
Lemma inheritance_cycle_unfinished (fuel : nat) :
  parse_data fuel
    (ParserV2_init Examples.cycle_src Examples.cycle_tree "foo" (Some "A") false) 1 true
  = {| yielded := []; ended := Unfinished |}.
Proof.
  set (self := ParserV2_init Examples.cycle_src Examples.cycle_tree "foo" (Some "A") false).
  set (mapping := build_node_mapping Examples.cycle_tree).
  assert (map_Forall
            (fun _ n => is_Some (header_line (PyStr.splitlines (source_code self)) n))
            mapping) as Hheaders.
  { apply map_Forall_to_list. vm_compute.
    repeat (apply Forall_cons; split; [eexists; reflexivity|]). apply Forall_nil_2. }
  assert (forall k acc,
            parent_queue_loop k self (PyStr.splitlines (source_code self)) ["A"] acc = None
            /\ parent_queue_loop k self (PyStr.splitlines (source_code self)) ["B"] acc = None)
    as Hloop.
  { induction k as [|k IH]; intros acc; [split; reflexivity|].
    rewrite !(parent_queue_loop_round self mapping _ eq_refl Hheaders).
    change (declared_parents mapping (PyStr.splitlines (source_code self)) "A") with ["B"].
    change (declared_parents mapping (PyStr.splitlines (source_code self)) "B") with ["A"].
    split; apply IH. }
  apply (parse_data_unfinished fuel self 1 "A" mapping
           (Examples.class_ "A" 1 2 []) "class A(B):"); try reflexivity.
  apply Hloop.
Qed.

(** ** The query descriptor normaliser *)

Lemma split_go_not_nil (sep : string) (skip : nat) (cur s : string) :
  PyStr.split_go sep skip cur s <> [].
Proof.
  revert skip cur. induction s as [|c s IH]; intros skip cur; cbn [PyStr.split_go];
    [discriminate|].
  destruct skip as [|k]; [|apply IH].
  destruct (String.prefix sep (String c s)); [discriminate|apply IH].
Qed.

Lemma list_remove_None (x : string) (l : list string) :
  list_remove x l = None <-> x ∉ l.
Proof.
  induction l as [|y l IH]; simpl.
  - split; [intros _; apply not_elem_of_nil|reflexivity].
  - destruct (String.eqb_spec y x) as [->|Hne].
    + split; [discriminate|]. intros H. destruct H. apply list_elem_of_here.
    + destruct (list_remove x l) eqn:Hr.
      * split; [discriminate|]. intros H. apply not_elem_of_cons in H as [_ H].
        by apply IH in H.
      * split; [|reflexivity]. intros _. apply not_elem_of_cons. split; [congruence|].
        by apply IH.
Qed.

Lemma startswith_token_eq (first : string) :
  PyStr.startswith first "discord" = false -> String.eqb first "discord" = false.
Proof.
  intros H. destruct (String.eqb_spec first "discord") as [->|]; [discriminate|reflexivity].
Qed.

Lemma first_char_None (a : string) : PyStr.first_char a = None <-> a = "".
Proof.
  destruct a as [|c a]; [done|]. unfold PyStr.first_char.
  by destruct (nat_of_ascii c <? 128).
Qed.

Lemma starts_upper_not_token {U : UnicodeData} (a : string) :
  starts_upper a = true -> PyStr.startswith a "discord" = false.
Proof.
  destruct a as [|ch a]; [discriminate|]. intros Hup.
  unfold PyStr.startswith.
  change (String.prefix "discord" (String ch a))
    with (if ascii_dec "d" ch then String.prefix "iscord" a else false).
  destruct (ascii_dec "d" ch) as [<-|]; [discriminate Hup|reflexivity].
Qed.

(** The dotted path of a clean query is resolved from the segments that
    remain after the namespace is stripped. *)
Lemma parse_dotted_clean {U : UnicodeData} (index : string) :
  namespace_clean index = true ->
  parse_dotted index =
  match remaining_segments index with
  | [a0; a1] =>
      let* ch := or_raise (PyStr.first_char a0) IndexError in
      Ok (a1, if PyStr.isupper ch then Some a0 else None)
  | [a0] => Ok (a0, None)
  | _ => Raise (ValueError (UnableToParse index))
  end.
Proof.
  unfold namespace_clean, remaining_segments, parse_dotted.
  destruct (PyStr.split index ".") as [|first rest] eqn:Hsplit.
  { by destruct (split_go_not_nil "." 0 "" index). }
  intros Hclean. cbn [py_index length]. simpl or_raise. cbn [bind].
  destruct (PyStr.startswith first "discord") eqn:Hstart; simpl in Hclean.
  - by rewrite Hclean.
  - by rewrite (startswith_token_eq first Hstart).
Qed.

(** Whether a query is rejected does not depend on the instance. *)
Lemma parse_attributes_raise_instance {U : UnicodeData} (index : query) (ex : bool)
    (instance : option ParserV2) (e : exn) :
  parse_attributes index ex instance = Raise e <->
  parse_attributes index ex None = Raise e.
Proof.
  unfold parse_attributes.
  destruct (match index with QStr _ => _ | QDict _ => _ end) as [rp|e'];
    destruct instance; simpl; split; congruence.
Qed.

(** The normaliser that works on an instance leaves the instance that
    [parse_attributes] gives for it, and leaves it untouched when it
    raises. *)
Lemma parse_attributes_instance_result {U : UnicodeData} (index : query) (ex : bool)
    (self : ParserV2) :
  parse_attributes_instance index ex self =
  match parse_attributes index ex (Some self) with
  | Ok (Reloads self') => (Ok tt, self')
  | Ok (Returns _ _ _) => (Ok tt, self)
  | Raise e => (Raise e, self)
  end.
Proof.
  unfold parse_attributes_instance, parse_attributes, inst_bind, inst_call, inst_ret,
    inst_raise, inst_reload.
  destruct index as [s|d], ex; cbn [bind]; try reflexivity.
  - by destruct (parse_dotted s).
  - by destruct (parse_descriptor d).
Qed.

(** C3, as amended.  Take a query that is a structured descriptor, or a
    string whose first segment is the namespace token itself or does not
    start with it.  Then [parse_attributes] raises a [ValueError] exactly
    when [exact] is given with a structured descriptor, or when a dotted
    path (without [exact]) is left with a number of segments other than one
    or two once the namespace is stripped.  And for every query: when the
    call on an instance raises, the instance is as it was, no [_reload]
    having run, and the call raises the same with any instance or none. *)
Theorem parse_attributes_value_error {U : UnicodeData} (index : query) (ex : bool)
    (instance : option ParserV2) :
  ((forall s, index = QStr s -> namespace_clean s = true) ->
   ((exists why, parse_attributes index ex instance = Raise (ValueError why)) <->
    (ex = true /\ exists d, index = QDict d) \/
    (ex = false /\ exists s, index = QStr s
       /\ length (remaining_segments s) <> 1 /\ length (remaining_segments s) <> 2)))
  /\ (forall self e,
        (parse_attributes_instance index ex self).1 = Raise e ->
        (parse_attributes_instance index ex self).2 = self
        /\ parse_attributes index ex instance = Raise e).
Proof.
  split.
  2:{ intros self e. rewrite parse_attributes_instance_result.
      rewrite (parse_attributes_raise_instance index ex instance).
      rewrite <- (parse_attributes_raise_instance index ex (Some self)).
      destruct (parse_attributes index ex (Some self)) as [[ret c ex'|self']|e'];
        cbn [fst snd]; [discriminate..|]. intros [= ->]. by split. }
  intros Hclean.
  assert (forall why, parse_attributes index ex instance = Raise (ValueError why) <->
                      parse_attributes index ex None = Raise (ValueError why)) as Hinst
    by (intros; apply parse_attributes_raise_instance).
  setoid_rewrite Hinst. clear Hinst. unfold parse_attributes.
  destruct index as [s|d], ex; simpl.
  - split; [intros [why Hwhy]; discriminate|].
    intros [[_ [d Hd]]|[Hex _]]; discriminate.
  - rewrite (parse_dotted_clean s) by (by apply Hclean).
    destruct (remaining_segments s) as [|a0 [|a1 [|a2 rest]]] eqn:Hrem; simpl.
    + split; [intros _; right; split; [reflexivity|]; exists s; by rewrite Hrem|eauto].
    + split; [intros [why Hwhy]; discriminate|].
      intros [[Hex _]|(_ & s' & [= <-] & H1 & _)]; [discriminate|].
      rewrite Hrem in H1. by destruct H1.
    + split.
      * intros [why Hwhy]. by destruct (PyStr.first_char a0).
      * intros [[Hex _]|(_ & s' & [= <-] & _ & H2)]; [discriminate|].
        rewrite Hrem in H2. by destruct H2.
    + split; [intros _; right; split; [reflexivity|]; exists s; by rewrite Hrem|eauto].
  - split; [eauto|]. intros _. eauto.
  - split.
    + intros [why Hwhy]. unfold parse_descriptor in Hwhy.
      destruct (d !! "function"), (d !! "class"); discriminate.
    + intros [[Hex _]|(_ & s & Hs & _)]; discriminate.
Qed.

(** The path ["a.b.c"] given for the parser of an example source: three
    segments remain, the call raises, and the parser is as it was. *)
Lemma parse_attributes_value_error_witness :
  let self :=
    ParserV2_init Examples.ready_src Examples.ready_tree "on_ready" None false in
  ((exists why,
      parse_attributes (U := Examples.ascii_only) (QStr "a.b.c") false (Some self)
      = Raise (ValueError why)) <->
   (false = true /\ exists d, QStr "a.b.c" = QDict d) \/
   (false = false /\ exists s, QStr "a.b.c" = QStr s
      /\ length (remaining_segments s) <> 1 /\ length (remaining_segments s) <> 2))
  /\ length (remaining_segments "a.b.c") = 3
  /\ (parse_attributes_instance (U := Examples.ascii_only) (QStr "a.b.c") false self).1
     = Raise (ValueError (UnableToParse "a.b.c"))
  /\ (parse_attributes_instance (U := Examples.ascii_only) (QStr "a.b.c") false self).2
     = self
  /\ parse_attributes (U := Examples.ascii_only) (QStr "a.b.c") false (Some self)
     = Raise (ValueError (UnableToParse "a.b.c")).
Proof.
  intros self.
  destruct (parse_attributes_value_error (U := Examples.ascii_only)
              (QStr "a.b.c") false (Some self)) as [Hiff Hinst].
  split; [|split; [reflexivity|split; [reflexivity|]]].
  - apply Hiff. intros s Hs. injection Hs as <-. reflexivity.
  - apply (Hinst self (ValueError (UnableToParse "a.b.c"))). reflexivity.
Defined.

(** Three queries outside the two cases of the claim.  The bare namespace
    token is rejected although no segment at all, rather than more than
    two, remains.  A first segment that starts with the token without being
    it is rejected with two segments in the path.  And with such a first
    segment a path of three segments, none of which is stripped as
    namespace, is accepted. *)
Lemma value_error_outside_the_two_cases :
  (parse_attributes (U := Examples.ascii_only) (QStr "discord") false None
   = Raise (ValueError (UnableToParse "discord"))
   /\ length (remaining_segments "discord") = 0
   /\ namespace_clean "discord" = true)
  /\ (parse_attributes (U := Examples.ascii_only) (QStr "discordx.foo") false None
      = Raise (ValueError NotInList)
      /\ length (remaining_segments "discordx.foo") = 2
      /\ namespace_clean "discordx.foo" = false)
  /\ (parse_attributes (U := Examples.ascii_only) (QStr "discordx.discord.a") false None
      = Ok (Returns "a" None false)
      /\ length (remaining_segments "discordx.discord.a") = 3
      /\ namespace_clean "discordx.discord.a" = false).
Proof. repeat split; reflexivity. Qed.

Lemma parse_attributes_dotted {U : UnicodeData} (index : string) (ret : string)
    (parent : option string) :
  parse_dotted index = Ok (ret, parent) ->
  parse_attributes (QStr index) false None
  = Ok (Returns (PyStr.strip_chars ret "()") parent false).
Proof. intros H. unfold parse_attributes. by rewrite H. Qed.

Lemma parse_dotted_plain (index first : string) (rest : list string) :
  PyStr.split index "." = first :: rest ->
  PyStr.startswith first "discord" = false ->
  remaining_segments index = first :: rest /\ namespace_clean index = true.
Proof.
  intros Hsplit Hstart. unfold remaining_segments, namespace_clean.
  by rewrite Hsplit, Hstart, (startswith_token_eq first Hstart).
Qed.

(** C6, as amended.  A dotted path of two segments whose first segment
    starts with an uppercase letter (for [str.isupper], within ASCII or
    beyond) gives that segment as enclosing class and the second one,
    without call parentheses at its ends, as target; of two segments whose
    first one is not empty, starts with another character and does not
    start with the namespace token, or is the namespace token, gives the
    second one as target and no class; of one segment that does not start
    with the namespace token gives it as target and no class; of three
    segments whose first one does not start with the namespace token is
    rejected. *)
Theorem dotted_path_resolution {U : UnicodeData} (index a b c : string) :
  (PyStr.split index "." = [a; b] -> starts_upper a = true ->
   parse_attributes (QStr index) false None
   = Ok (Returns (PyStr.strip_chars b "()") (Some a) false))
  /\ (PyStr.split index "." = [a; b] -> a <> "" -> starts_upper a = false ->
      PyStr.startswith a "discord" = false ->
      parse_attributes (QStr index) false None
      = Ok (Returns (PyStr.strip_chars b "()") None false))
  /\ (PyStr.split index "." = ["discord"; b] ->
      parse_attributes (QStr index) false None
      = Ok (Returns (PyStr.strip_chars b "()") None false))
  /\ (PyStr.split index "." = [a] -> PyStr.startswith a "discord" = false ->
      parse_attributes (QStr index) false None
      = Ok (Returns (PyStr.strip_chars a "()") None false))
  /\ (PyStr.split index "." = [a; b; c] -> PyStr.startswith a "discord" = false ->
      parse_attributes (QStr index) false None
      = Raise (ValueError (UnableToParse index))).
Proof.
  repeat split.
  - intros Hsplit Hup. apply parse_attributes_dotted.
    destruct (parse_dotted_plain index a [b] Hsplit (starts_upper_not_token a Hup))
      as [Hrem Hclean].
    rewrite (parse_dotted_clean index Hclean), Hrem.
    unfold starts_upper in Hup.
    destruct (PyStr.first_char a) as [ch|]; [|discriminate]. simpl. by rewrite Hup.
  - intros Hsplit Ha Hup Hstart. apply parse_attributes_dotted.
    destruct (parse_dotted_plain index a [b] Hsplit Hstart) as [Hrem Hclean].
    rewrite (parse_dotted_clean index Hclean), Hrem.
    unfold starts_upper in Hup.
    destruct (PyStr.first_char a) as [ch|] eqn:Hch.
    + simpl. by rewrite Hup.
    + by apply first_char_None in Hch.
  - intros Hsplit. apply parse_attributes_dotted.
    rewrite parse_dotted_clean by (unfold namespace_clean; by rewrite Hsplit).
    unfold remaining_segments. by rewrite Hsplit.
  - intros Hsplit Hstart. apply parse_attributes_dotted.
    destruct (parse_dotted_plain index a [] Hsplit Hstart) as [Hrem Hclean].
    by rewrite (parse_dotted_clean index Hclean), Hrem.
  - intros Hsplit Hstart. unfold parse_attributes.
    destruct (parse_dotted_plain index a [b; c] Hsplit Hstart) as [Hrem Hclean].
    by rewrite (parse_dotted_clean index Hclean), Hrem.
Qed.

(** The paths of the specification: ["Embed.set_author"], ["set_author"]
    and ["a.b.c"], a path with a lowercase first segment, a path with the
    namespace token, and a path whose first segment starts with an
    uppercase letter beyond ASCII. *)
Lemma dotted_path_resolution_witness :
  parse_attributes (U := Examples.ascii_only) (QStr "Embed.set_author") false None
  = Ok (Returns "set_author" (Some "Embed") false)
  /\ parse_attributes (U := Examples.with_e_acute)
       (QStr (Examples.e_acute +:+ "x.Z")) false None
     = Ok (Returns "Z" (Some (Examples.e_acute +:+ "x")) false)
  /\ parse_attributes (U := Examples.ascii_only) (QStr "utils.find") false None
     = Ok (Returns "find" None false)
  /\ parse_attributes (U := Examples.ascii_only) (QStr "discord.Embed") false None
     = Ok (Returns "Embed" None false)
  /\ parse_attributes (U := Examples.ascii_only) (QStr "set_author") false None
     = Ok (Returns "set_author" None false)
  /\ parse_attributes (U := Examples.ascii_only) (QStr "a.b.c") false None
     = Raise (ValueError (UnableToParse "a.b.c")).
Proof.
  split; [|split; [|split; [|split; [|split]]]].
  - exact (proj1 (dotted_path_resolution "Embed.set_author" "Embed" "set_author" "")
             eq_refl eq_refl).
  - exact (proj1 (dotted_path_resolution (U := Examples.with_e_acute)
                    (Examples.e_acute +:+ "x.Z") (Examples.e_acute +:+ "x") "Z" "")
             eq_refl eq_refl).
  - refine (proj1 (proj2 (dotted_path_resolution "utils.find" "utils" "find" ""))
              eq_refl _ eq_refl eq_refl).
    discriminate.
  - exact (proj1 (proj2 (proj2 (dotted_path_resolution "discord.Embed" "" "Embed" "")))
             eq_refl).
  - exact (proj1 (proj2 (proj2 (proj2
             (dotted_path_resolution "set_author" "set_author" "" ""))))
             eq_refl eq_refl).
  - exact (proj2 (proj2 (proj2 (proj2 (dotted_path_resolution "a.b.c" "a" "b" "c"))))
             eq_refl eq_refl).
Defined.

(** Paths that the claim reads otherwise.  Two segments with a lowercase
    first segment that starts with the namespace token: rejected, the first
    segment is not dropped.  One segment that starts with the namespace
    token, and the namespace token alone: rejected, no target is set.
    Three segments with a first segment that starts with the namespace
    token without being it: accepted.  A second segment written as a call:
    the target is the segment without the parentheses.  And two segments
    with an empty first segment: [IndexError]. *)
Lemma dotted_path_token_and_call_cases :
  (PyStr.split "discordx.foo" "." = ["discordx"; "foo"]
   /\ starts_upper (U := Examples.ascii_only) "discordx" = false
   /\ parse_attributes (U := Examples.ascii_only) (QStr "discordx.foo") false None
      = Raise (ValueError NotInList))
  /\ (PyStr.split "discord_utils" "." = ["discord_utils"]
      /\ parse_attributes (U := Examples.ascii_only) (QStr "discord_utils") false None
         = Raise (ValueError NotInList))
  /\ (PyStr.split "discord" "." = ["discord"]
      /\ parse_attributes (U := Examples.ascii_only) (QStr "discord") false None
         = Raise (ValueError (UnableToParse "discord")))
  /\ (PyStr.split "discordx.discord.a" "." = ["discordx"; "discord"; "a"]
      /\ parse_attributes (U := Examples.ascii_only) (QStr "discordx.discord.a") false None
         = Ok (Returns "a" None false))
  /\ (PyStr.split "Embed.set_author()" "." = ["Embed"; "set_author()"]
      /\ parse_attributes (U := Examples.ascii_only) (QStr "Embed.set_author()") false None
         = Ok (Returns "set_author" (Some "Embed") false))
  /\ (PyStr.split ".foo" "." = [""; "foo"]
      /\ starts_upper (U := Examples.ascii_only) "" = false
      /\ parse_attributes (U := Examples.ascii_only) (QStr ".foo") false None
         = Raise IndexError).
Proof. repeat split; reflexivity. Qed.

(** C10, as amended.  For a dotted path whose first segment starts with the
    namespace token, [parse_attributes] raises the [ValueError] of
    [list.remove] exactly when no segment is equal to the token. *)
Theorem namespace_prefix_remove {U : UnicodeData} (index first : string)
    (rest : list string) (instance : option ParserV2) :
  PyStr.split index "." = first :: rest ->
  PyStr.startswith first "discord" = true ->
  (parse_attributes (QStr index) false instance = Raise (ValueError NotInList)
   <-> "discord" ∉ first :: rest).
Proof.
  intros Hsplit Hstart. rewrite parse_attributes_raise_instance.
  rewrite <- list_remove_None.
  unfold parse_attributes, parse_dotted. rewrite Hsplit.
  cbn [py_index length]. simpl or_raise at 1. cbn [bind]. rewrite Hstart.
  destruct (list_remove "discord" (first :: rest)) as [attributes|]; simpl.
  - split; [|discriminate]. intros H.
    destruct attributes as [|a0 [|a1 [|a2 r]]]; simpl in H; try discriminate.
    destruct (PyStr.first_char a0); discriminate.
  - split; reflexivity.
Qed.

Lemma namespace_prefix_remove_witness :
  parse_attributes (U := Examples.ascii_only) (QStr "discordx.Class.method") false None
  = Raise (ValueError NotInList)
  <-> "discord" ∉ ["discordx"; "Class"; "method"].
Proof.
  exact (namespace_prefix_remove "discordx.Class.method" "discordx" ["Class"; "method"] None
           eq_refl eq_refl).
Defined.

(** The first segment starts with the token and is not equal to it, yet
    nothing is raised: a later segment is the one that is removed. *)
Lemma namespace_prefix_later_token :
  PyStr.split "discordx.discord" "." = ["discordx"; "discord"]
  /\ PyStr.startswith "discordx" "discord" = true
  /\ String.eqb "discordx" "discord" = false
  /\ parse_attributes (U := Examples.ascii_only) (QStr "discordx.discord") false None
     = Ok (Returns "discordx" None false).
Proof. repeat split; reflexivity. Qed.

(** ** Exact mode on the example sources *)

(** C2.  The statement [return 1] stands in the method [foo] of class [A]
    and in the function [top]; the class comes first in the source and in
    the traversal.  The scan of the class node compares the line of the
    method as it is written, with its indentation, and yields nothing; with
    [count = 1] the only match is the function [top].  (In a source where
    the method is the only place of the statement, the method is yielded,
    by the visit of the function node itself.) *)
Theorem exact_class_scan_misses_indented_line (fuel : nat) (allow : bool) :
  let self := ParserV2_init Examples.method_src Examples.method_tree "return 1" None true in
  let new_lines :=
    [ "class A:"; "    def foo(self):"; "        return 1"; "def top():"; "    return 1" ] in
  let class_A := Examples.class_ "A" 1 3 [Examples.def_ "foo" 2 3 []] in
  let start := {| already_searched := (∅ : gset (Z * Z)); emitted := [] |} in
  PyStr.splitlines
    (PyStr.rstrip (PyStr.lstrip
       (PyStr.join newline (PyStr.splitlines (source_code self)))))
  = new_lines
  /\ walk (data self)
     = [Examples.method_tree; class_A; Examples.def_ "top" 4 5 []; Examples.def_ "foo" 2 3 []]
  /\ exact_node "return 1" 1 new_lines class_A start = (start, Next)
  /\ parse_data fuel self 1 allow
     = {| yielded := [(PyStr.join newline ["def top():"; "    return 1"], 3%Z)];
          ended := Returned |}
  /\ parse_data fuel
       (ParserV2_init Examples.inherit_src Examples.inherit_tree "return 1" None true) 1 allow
     = {| yielded := [(PyStr.join newline ["    def foo(self):"; "        return 1"], 1%Z)];
          ended := Returned |}.
Proof. repeat split; vm_compute; reflexivity. Qed.

(** C4.  The method [foo] of class [A] has a line in the first column that
    is equal to the query.  The scan of the class yields [foo] and records
    the key [(2, 5)], made of [lineno] and [end_lineno]; the visit of [foo]
    itself looks for the key [(1, 5)], made of [lineno - 1] and
    [end_lineno], and yields [foo] again. *)
Theorem exact_method_yielded_twice :
  let self := ParserV2_init Examples.column0_src Examples.column0_tree "1" None true in
  let new_lines :=
    [ "class A:"; "    def foo(self):"; "        return ("; "1"; "        )" ] in
  let foo_match :=
    (PyStr.join newline
       ["    def foo(self):"; "        return ("; "1"; "        )"], 1%Z) in
  for_each (exact_node "1" 5 new_lines) (walk (data self))
    {| already_searched := ∅; emitted := [] |}
  = ({| already_searched := {[ (2%Z, 5%Z) ]} ∪ {[ (1%Z, 5%Z) ]};
        emitted := [foo_match; foo_match] |}, Next)
  /\ parse_data 0 self 5 true
     = {| yielded := [foo_match; foo_match]; ended := Returned |}.
Proof. split; vm_compute; reflexivity. Qed.

(** * Further properties *)

(** ** Cardinality *)

(** The method with a line in the first column is met twice, and two matches
    are what [count = 2] allows. *)
Lemma parse_data_exact_bounded_witness :
  (Z.of_nat (length (yielded (parse_data 0
     (ParserV2_init Examples.column0_src Examples.column0_tree "1" None true) 2 true)))
   <= 2)%Z.
Proof.
  apply (parse_data_exact_bounded 0
           (ParserV2_init Examples.column0_src Examples.column0_tree "1" None true) 2 true).
  - reflexivity.
  - lia.
Defined.

(** With a count below the counter, the scan of the tree never stops early. *)
Lemma walk_scan_unbounded (target : string) (count : Z) (lines : list string)
    (xs : list node) (st : gen_state Z) :
  (count < already_searched st)%Z ->
  emitted (for_each (walk_node target count lines) xs st).1 =
  emitted st ++ map (snippet lines) (List.filter (named target) xs).
Proof.
  revert st. induction xs as [|x xs IH]; intros st Hst; simpl.
  - by rewrite app_nil_r.
  - unfold walk_node at 1. fold (named target x).
    destruct (Z.eqb_spec (already_searched st) count) as [Heq|_]; [lia|].
    destruct (named target x); simpl.
    + rewrite IH by (simpl; lia). simpl. by rewrite <- app_assoc.
    + by apply IH.
Qed.

(** Name mode without a class returns after yielding the definitions of the
    name in traversal order: the first [count] of them, and all of them when
    [count] is negative. *)
Theorem name_mode_yields_first_matches (fuel : nat) (self : ParserV2) (count : Z)
    (allow : bool) :
  exact self = false -> cls self = None ->
  parse_data fuel self count allow =
  {| yielded :=
       if (count <? 0)%Z then all_named self
       else take (Z.to_nat count) (all_named self);
     ended := Returned |}.
Proof.
  intros Hex Hcls. destruct (Z.ltb_spec count 0) as [Hneg|Hpos].
  - unfold parse_data. rewrite Hex, Hcls.
    rewrite finish_returned
      by (apply for_each_never_throws; intros; apply walk_node_never_throws).
    by rewrite walk_scan_unbounded by (simpl; lia).
  - by apply parse_data_by_name.
Qed.

Lemma name_mode_yields_first_matches_witness :
  parse_data 0 (ParserV2_init Examples.twice_src Examples.twice_tree "foo" None false) (-1) true
  = {| yielded :=
         [(PyStr.join newline ["    def foo(self):"; "        return 1"], 1%Z);
          (PyStr.join newline ["    def foo(self, v):"; "        return v"], 3%Z)];
       ended := Returned |}.
Proof.
  exact (name_mode_yields_first_matches 0
           (ParserV2_init Examples.twice_src Examples.twice_tree "foo" None false) (-1) true
           eq_refl eq_refl).
Defined.

(** With [count = 0] nothing is yielded, in either mode. *)
Theorem count_zero_yields_nothing (fuel : nat) (self : ParserV2) (allow : bool) :
  yielded (parse_data fuel self 0 allow) = [].
Proof.
  destruct (exact self) eqn:Hex.
  - apply length_zero_iff_nil. unfold parse_data. rewrite Hex. unfold finish; simpl.
    match goal with
    | |- context [for_each ?f ?xs ?st] =>
        assert (counted 0 (for_each f xs st).1) as [Hlen Hle]
    end.
    { apply (for_each_invariant (counted 0)).
      - split; [reflexivity|]. cbn [already_searched]. rewrite size_empty. lia.
      - intros; by apply exact_node_counted. }
    lia.
  - destruct (cls self) as [c|] eqn:Hcls.
    + unfold parse_data. rewrite Hex, Hcls.
      destruct (_node_mapping self) as [mapping|]; [|reflexivity].
      destruct (mapping !! c) as [n|]; [|reflexivity].
      destruct allow; [|by rewrite class_scan_full].
      destruct (py_index _ _); [|reflexivity].
      destruct (filter_parent_classes _ _); [|reflexivity].
      destruct (get_all_parent_classes _ _ _ _) as [[nodes|e]|]; try reflexivity.
      by rewrite class_scan_full.
    + by rewrite parse_data_by_name.
Qed.

(** ** The traversal and the Entity Index *)

(** With enough fuel the walk lists what is in the queue and, with a node,
    its children. *)
Lemma walk_queue_closed (fuel : nat) (todo : list node) :
  forest_size todo <= fuel ->
  (forall n, n ∈ todo -> n ∈ walk_queue fuel todo)
  /\ (forall n c, n ∈ walk_queue fuel todo -> c ∈ body n -> c ∈ walk_queue fuel todo).
Proof.
  revert todo. induction fuel as [|fuel IH]; intros [|x todo] Hle.
  - split; [intros n Hn|intros n c Hn]; by apply elem_of_nil in Hn.
  - simpl in Hle. pose proof (node_size_body x). lia.
  - split; [intros n Hn|intros n c Hn]; by apply elem_of_nil in Hn.
  - assert (forest_size (todo ++ body x) <= fuel) as Hrest.
    { rewrite forest_size_app. simpl in Hle. rewrite (node_size_body x) in Hle. lia. }
    destruct (IH _ Hrest) as [Hin Hclosed]. simpl. split.
    + intros n Hn. apply elem_of_cons in Hn as [->|Hn]; [apply list_elem_of_here|].
      apply list_elem_of_further, Hin, elem_of_app. by left.
    + intros n c Hn Hc. apply list_elem_of_further.
      apply elem_of_cons in Hn as [->|Hn].
      * apply Hin, elem_of_app. by right.
      * by apply (Hclosed n).
Qed.

Lemma walk_queue_in_tree (root : node) (fuel : nat) (todo : list node) :
  Forall (in_tree root) todo -> Forall (in_tree root) (walk_queue fuel todo).
Proof.
  revert todo. induction fuel as [|fuel IH]; intros [|x todo] Htodo; simpl;
    try apply Forall_nil_2.
  apply Forall_cons in Htodo as [Hx Htodo]. apply Forall_cons. split; [exact Hx|].
  apply IH, Forall_app. split; [exact Htodo|].
  apply Forall_forall. intros c Hc. by apply (in_tree_child root x).
Qed.

(** The traversal lists exactly the nodes of the tree. *)
Lemma walk_in_tree (root n : node) : n ∈ walk root <-> in_tree root n.
Proof.
  split.
  - intros Hn.
    assert (Forall (in_tree root) (walk root)) as Hall.
    { apply walk_queue_in_tree, Forall_singleton, in_tree_root. }
    rewrite Forall_forall in Hall. by apply Hall.
  - destruct (walk_queue_closed (node_size root) [root]) as [Hin Hclosed].
    { simpl. lia. }
    induction 1 as [|n c _ IH Hc].
    + apply Hin, list_elem_of_here.
    + by apply (Hclosed n).
Qed.

Lemma index_classes_elem (tree : node) (c : string) (n : node) :
  n ∈ List.filter (fun n => is_ClassDef n && String.eqb (name n) c) (walk tree)
  <-> in_tree tree n /\ is_ClassDef n = true /\ name n = c.
Proof.
  rewrite list_elem_of_In, filter_In, <- list_elem_of_In.
  rewrite walk_in_tree, andb_true_iff, String.eqb_eq. tauto.
Qed.

(** What the index holds under a name is a class of the tree of that name. *)
Lemma index_lookup_class (tree : node) (c : string) (n : node) :
  build_node_mapping tree !! c = Some n ->
  in_tree tree n /\ is_ClassDef n = true /\ name n = c.
Proof.
  unfold build_node_mapping. rewrite index_fold_lookup. intros Hn.
  destruct (last _) as [n'|] eqn:Hlast; [|by rewrite lookup_empty in Hn].
  injection Hn as <-. apply index_classes_elem. apply last_Some in Hlast as [l' ->].
  apply elem_of_app. right. apply list_elem_of_here.
Qed.

(** The Entity Index has a key for the name of every class of the tree, at
    whatever depth the class is nested, and what it holds under a name is a
    class of the tree of that name. *)
Theorem index_covers_every_class (tree : node) (c : string) :
  (forall n, in_tree tree n -> is_ClassDef n = true -> name n = c ->
             is_Some (build_node_mapping tree !! c))
  /\ (forall n, build_node_mapping tree !! c = Some n ->
                in_tree tree n /\ is_ClassDef n = true /\ name n = c).
Proof.
  split; [|apply index_lookup_class].
  intros n Hn Hclass Hname. unfold build_node_mapping. rewrite index_fold_lookup.
  assert (n ∈ List.filter (fun n => is_ClassDef n && String.eqb (name n) c) (walk tree))
    as Hin by (apply index_classes_elem; tauto).
  destruct (last _) as [n'|] eqn:Hlast; [by eexists|].
  apply last_None in Hlast. rewrite Hlast in Hin. by apply elem_of_nil in Hin.
Qed.

(** A class declared inside a method of another class is indexed. *)
Lemma index_covers_every_class_witness :
  is_Some (build_node_mapping Examples.nested_tree !! "Inner").
Proof.
  apply (proj1 (index_covers_every_class Examples.nested_tree "Inner")
           Examples.nested_inner).
  - apply (in_tree_child _ Examples.nested_method); [|apply list_elem_of_here].
    apply (in_tree_child _ (Examples.class_ "Outer" 1 4 [Examples.nested_method]));
      [|apply list_elem_of_here].
    apply (in_tree_child _ Examples.nested_tree); [apply in_tree_root|].
    apply list_elem_of_here.
  - reflexivity.
  - reflexivity.
Defined.

(** ** Reloading an instance *)

(** In exact mode the generator does not read the Entity Index. *)
Lemma parse_data_exact_index (fuel : nat) (p q : ParserV2) (count : Z) (allow : bool) :
  exact p = true -> exact q = true ->
  source_code p = source_code q -> data p = data q ->
  to_search_for p = to_search_for q ->
  parse_data fuel p count allow = parse_data fuel q count allow.
Proof.
  intros Hp Hq Hsource Hdata Htarget. unfold parse_data.
  by rewrite Hp, Hq, Hsource, Hdata, Htarget.
Qed.

(** An instance reloaded by [parse_attributes] answers as the instance that
    [create_class] makes from the same text, tree and query: the same
    matches, the same ending, in either mode. *)
Theorem reload_answers_like_fresh {U : UnicodeData} (self reloaded : ParserV2)
    (index : query) (ex : bool) :
  parse_attributes index ex (Some self) = Ok (Reloads reloaded) ->
  exists fresh,
    create_class (source_code self) (data self) index ex = Ok fresh
    /\ forall fuel count allow,
         parse_data fuel reloaded count allow = parse_data fuel fresh count allow.
Proof.
  unfold create_class, parse_attributes.
  destruct (match index with QStr _ => _ | QDict _ => _ end) as [rp|e]; simpl;
    [|discriminate].
  intros [= <-]. eexists. split; [reflexivity|].
  intros fuel count allow. destruct ex.
  - by apply parse_data_exact_index.
  - reflexivity.
Qed.

Lemma reload_answers_like_fresh_witness :
  exists fresh,
    create_class (U := Examples.ascii_only) Examples.inherit_src Examples.inherit_tree
      (QStr "B.foo") false = Ok fresh
    /\ forall fuel count allow,
         parse_data fuel
           (_reload (ParserV2_init Examples.inherit_src Examples.inherit_tree
                       "return 1" None true) "foo" (Some "B") false)
           count allow
         = parse_data fuel fresh count allow.
Proof.
  exact (reload_answers_like_fresh (U := Examples.ascii_only)
           (ParserV2_init Examples.inherit_src Examples.inherit_tree "return 1" None true)
           _ (QStr "B.foo") false eq_refl).
Defined.

(** ** What the generator can raise *)

Lemma made_indexed (self : ParserV2) :
  made self -> exact self = false -> is_Some (_node_mapping self).
Proof.
  intros [source tree target c ex|p target c ex _] Hex; simpl in *; subst ex; by eexists.
Qed.

Lemma for_each_throws_only {A St} (f : A -> St -> St * signal) (e0 : exn) xs st :
  (forall x s e, (f x s).2 = Throw e -> e = e0) ->
  forall e, (for_each f xs st).2 = Throw e -> e = e0.
Proof.
  intros Hf. revert st. induction xs as [|x xs IH]; intros st e; simpl; [discriminate|].
  pose proof (Hf x st) as Hx.
  destruct (f x st) as [st' [| |e']]; simpl in *; [apply IH|discriminate|apply Hx].
Qed.

Lemma exact_node_throws_only (target : string) (count : Z) (new_lines : list string)
    (n : node) (st : gen_state (gset (Z * Z))) (e : exn) :
  (exact_node target count new_lines n st).2 = Throw e -> e = IndexError.
Proof.
  unfold exact_node. destruct (is_definition n); [|discriminate].
  apply for_each_throws_only. clear st e. intros i st e.
  unfold exact_node_line. destruct (py_index new_lines i); [|by intros [= <-]].
  destruct (String.eqb target _); [|discriminate].
  destruct (_ && _).
  - apply for_each_throws_only. clear st e. intros func_node st e.
    unfold exact_class_child. destruct (_ && _); [|discriminate].
    apply for_each_throws_only. clear st e. intros j st e.
    unfold exact_func_line. destruct (_ =? _)%Z; [discriminate|].
    case_bool_decide; [discriminate|].
    destruct (py_index new_lines j); [|by intros [= <-]].
    destruct (String.eqb target _); discriminate.
  - destruct (_ =? _)%Z; [discriminate|]. case_bool_decide; discriminate.
Qed.

Lemma parent_queue_loop_raises_only (self : ParserV2) (mapping : gmap string node)
    (lines : list string) (fuel : nat) (queue : list string) (acc : list node) (e : exn) :
  _node_mapping self = Some mapping ->
  parent_queue_loop fuel self lines queue acc = Some (Raise e) -> e = IndexError.
Proof.
  intros Hmap. revert queue acc. induction fuel as [|fuel IH]; intros [|a queue] acc;
    simpl; try discriminate.
  rewrite Hmap. destruct (mapping !! a) as [n|]; [|apply IH].
  destruct (py_index lines _); [|by intros [= <-]].
  rewrite (filter_parent_classes_indexed self mapping Hmap). apply IH.
Qed.

(** On an instance that comes from the constructor and from reloads, the
    generator raises nothing but an [IndexError]; in name mode it raises
    nothing at all unless a class is set and its ancestors are searched. *)
Theorem parse_data_raises_only_IndexError (fuel : nat) (self : ParserV2) (count : Z)
    (allow : bool) :
  made self ->
  (ended (parse_data fuel self count allow) = Returned
   \/ ended (parse_data fuel self count allow) = Raised IndexError
   \/ ended (parse_data fuel self count allow) = Unfinished)
  /\ (exact self = false -> cls self = None \/ allow = false ->
      ended (parse_data fuel self count allow) = Returned).
Proof.
  intros Hmade.
  assert (forall nodes,
            ended (finish (for_each (class_node (to_search_for self) count
                                       (PyStr.splitlines (source_code self))) nodes
                             {| already_searched := 0%Z; emitted := [] |})) = Returned)
    as Hscan.
  { intros nodes. rewrite finish_returned; [reflexivity|].
    apply for_each_never_throws. intros; apply class_node_never_throws. }
  unfold parse_data. destruct (exact self) eqn:Hex.
  - split; [|discriminate]. unfold finish; simpl.
    match goal with |- context [for_each ?f ?xs ?st] =>
      pose proof (for_each_throws_only f IndexError xs st
                    (fun x s e => exact_node_throws_only _ _ _ x s e)) as Honly;
      destruct (for_each f xs st) as [st' [| |e]]; simpl in *; auto
    end.
    rewrite (Honly e eq_refl). auto.
  - destruct (made_indexed self Hmade Hex) as [mapping Hmap]. rewrite Hmap.
    destruct (cls self) as [c|].
    + destruct (mapping !! c) as [n|]; [|by split; [left|]].
      destruct allow.
      * split; [|by intros _ [|]].
        destruct (py_index _ _); [|by right; left].
        rewrite (filter_parent_classes_indexed self mapping Hmap).
        destruct (get_all_parent_classes _ _ _ _) as [[nodes|e]|] eqn:Hloop; simpl.
        -- left. apply Hscan.
        -- apply (parent_queue_loop_raises_only self mapping) in Hloop as ->; auto.
        -- auto.
      * split; [left|intros _ _]; apply Hscan.
    + assert (forall st, ended (finish (for_each (walk_node (to_search_for self) count
                                  (PyStr.splitlines (source_code self)))
                                 (walk (data self)) st)) = Returned) as Hwalk.
      { intros st. rewrite finish_returned; [reflexivity|].
        apply for_each_never_throws. intros; apply walk_node_never_throws. }
      split; [left|intros _ _]; apply Hwalk.
Qed.

(** A source that starts with an empty line: exact mode reads past the end
    of the normalised lines, and that is all that can happen. *)
Lemma parse_data_raises_only_IndexError_witness :
  ended (parse_data 0
           (ParserV2_init (newline +:+ Examples.inherit_src)
              (Examples.module_
                 [Examples.class_ "A" 2 4 [Examples.def_ "foo" 3 4 []];
                  Examples.class_ "B" 5 6 []])
              "return 1" None true) 1 true)
  = Raised IndexError.
Proof.
  destruct (parse_data_raises_only_IndexError 0
              (ParserV2_init (newline +:+ Examples.inherit_src)
                 (Examples.module_
                    [Examples.class_ "A" 2 4 [Examples.def_ "foo" 3 4 []];
                     Examples.class_ "B" 5 6 []])
                 "return 1" None true) 1 true (made_init _ _ _ _ _))
    as [[H|[H|H]] _]; [discriminate H|exact H|discriminate H].
Defined.

(** ** Inheritance without end *)

Section Generations.
Variables (mapping : gmap string node) (lines : list string).

Lemma generation_app (d : nat) (x y : list string) :
  generation mapping lines d (x ++ y)
  = generation mapping lines d x ++ generation mapping lines d y.
Proof.
  revert x y. induction d as [|d IH]; intros x y; simpl; [reflexivity|].
  by rewrite flat_map_app, IH.
Qed.

Lemma generation_parents (d : nat) (x : list string) :
  generation mapping lines d (flat_map (declared_parents mapping lines) x)
  = flat_map (declared_parents mapping lines) (generation mapping lines d x).
Proof.
  revert x. induction d as [|d IH]; intros x; simpl; [reflexivity|].
  by rewrite IH.
Qed.

(** When no generation above the queue is empty, none is after a round. *)
Lemma generation_round (a : string) (rest : list string) :
  (forall d, generation mapping lines d (a :: rest) <> []) ->
  forall d, generation mapping lines d (rest ++ declared_parents mapping lines a) <> [].
Proof.
  intros Hall d Hnil. rewrite generation_app in Hnil.
  apply app_eq_nil in Hnil as [Hrest Ha].
  apply (Hall (S d)). simpl. rewrite generation_app, Ha, generation_parents, Hrest.
  reflexivity.
Qed.
End Generations.

(** When the inheritance above the seed names has no end, as with a cycle
    of base classes, the queue of [get_all_parent_classes] is never empty:
    the call does not return, however many rounds it is given. *)
Theorem get_all_parent_classes_no_end (fuel : nat) (self : ParserV2)
    (mapping : gmap string node) (seeds : list string) (current_nodes : list node) :
  _node_mapping self = Some mapping ->
  map_Forall (fun _ n => is_Some (header_line (PyStr.splitlines (source_code self)) n))
    mapping ->
  (forall d, generation mapping (PyStr.splitlines (source_code self)) d seeds <> []) ->
  get_all_parent_classes fuel self seeds current_nodes = None.
Proof.
  intros Hmap Hheaders. unfold get_all_parent_classes.
  revert seeds current_nodes. induction fuel as [|fuel IH]; intros seeds acc Hall.
  - destruct seeds; [by destruct (Hall 0)|reflexivity].
  - destruct seeds as [|a rest]; [by destruct (Hall 0)|].
    rewrite (parent_queue_loop_round self mapping _ Hmap Hheaders).
    apply IH. by apply generation_round.
Qed.

(** [class A(B)] and [class B(A)]: the ancestors of [A] are never all found. *)
Lemma get_all_parent_classes_no_end_witness :
  get_all_parent_classes 1000
    (ParserV2_init Examples.cycle_src Examples.cycle_tree "foo" (Some "A") false)
    ["B"] [Examples.class_ "A" 1 2 []]
  = None.
Proof.
  apply (get_all_parent_classes_no_end 1000 _ (build_node_mapping Examples.cycle_tree)).
  - reflexivity.
  - apply map_Forall_to_list. vm_compute.
    repeat (apply Forall_cons; split; [eexists; reflexivity|]). apply Forall_nil_2.
  - assert (forall d,
      generation (build_node_mapping Examples.cycle_tree)
        (PyStr.splitlines Examples.cycle_src) d ["A"] <> []
      /\ generation (build_node_mapping Examples.cycle_tree)
           (PyStr.splitlines Examples.cycle_src) d ["B"] <> []) as Hboth.
    { induction d as [|d [HA HB]]; [split; discriminate|]. split.
      - change (generation (build_node_mapping Examples.cycle_tree)
                  (PyStr.splitlines Examples.cycle_src) (S d) ["A"])
          with (generation (build_node_mapping Examples.cycle_tree)
                  (PyStr.splitlines Examples.cycle_src) d ["B"]).
        exact HB.
      - change (generation (build_node_mapping Examples.cycle_tree)
                  (PyStr.splitlines Examples.cycle_src) (S d) ["B"])
          with (generation (build_node_mapping Examples.cycle_tree)
                  (PyStr.splitlines Examples.cycle_src) d ["A"]).
        exact HA. }
    intros d. apply Hboth.
Defined.

(** ** The structured descriptor *)

(** A descriptor with a function gives the function, freed of call
    parentheses, as target and the class, when there is one and whatever its
    first letter, as enclosing class; a descriptor with a class only gives
    the class as target; one with neither raises [KeyError]; and a
    descriptor with both gives what the dotted path of the two gives when
    the class starts with an uppercase letter. *)
Theorem structured_descriptor_resolution {U : UnicodeData} (d : gmap string string)
    (index a b : string) (instance : option ParserV2) :
  (forall f, d !! "function" = Some f ->
     parse_attributes (QDict d) false None
     = Ok (Returns (PyStr.strip_chars f "()") (d !! "class") false))
  /\ (forall c, d !! "function" = None -> d !! "class" = Some c ->
        parse_attributes (QDict d) false None
        = Ok (Returns (PyStr.strip_chars c "()") None false))
  /\ (d !! "function" = None -> d !! "class" = None ->
      parse_attributes (QDict d) false instance = Raise (KeyError "class"))
  /\ (PyStr.split index "." = [a; b] -> starts_upper a = true ->
      parse_attributes (QDict (<["function" := b]> {["class" := a]})) false instance
      = parse_attributes (QStr index) false instance).
Proof.
  repeat split.
  - intros f Hf. unfold parse_attributes, parse_descriptor. by rewrite Hf.
  - intros c Hf Hc. unfold parse_attributes, parse_descriptor. by rewrite Hf, Hc.
  - intros Hf Hc. unfold parse_attributes, parse_descriptor. by rewrite Hf, Hc.
  - intros Hsplit Hup.
    destruct (parse_dotted_plain index a [b] Hsplit (starts_upper_not_token a Hup))
      as [Hrem Hclean].
    unfold parse_attributes, parse_descriptor.
    rewrite (parse_dotted_clean index Hclean), Hrem.
    rewrite lookup_insert_eq, lookup_insert_ne, lookup_singleton_eq by done.
    unfold starts_upper in Hup.
    destruct (PyStr.first_char a) as [ch|]; [|discriminate]. simpl. by rewrite Hup.
Qed.

Lemma structured_descriptor_resolution_witness :
  parse_attributes (U := Examples.ascii_only) (QDict (<["function" := "set_author()"]> {["class" := "embed"]}))
    false None
  = Ok (Returns "set_author" (Some "embed") false)
  /\ parse_attributes (U := Examples.ascii_only) (QDict {["class" := "Embed"]}) false None
     = Ok (Returns "Embed" None false)
  /\ parse_attributes (U := Examples.ascii_only) (QDict ∅) false None = Raise (KeyError "class")
  /\ parse_attributes (U := Examples.ascii_only) (QDict (<["function" := "set_author"]> {["class" := "Embed"]}))
       false None
     = parse_attributes (U := Examples.ascii_only) (QStr "Embed.set_author") false None.
Proof.
  split; [|split; [|split]].
  - exact (proj1 (structured_descriptor_resolution
                    (<["function" := "set_author()"]> {["class" := "embed"]}) "" "" "" None)
             "set_author()" eq_refl).
  - exact (proj1 (proj2 (structured_descriptor_resolution
                           {["class" := "Embed"]} "" "" "" None))
             "Embed" eq_refl eq_refl).
  - exact (proj1 (proj2 (proj2 (structured_descriptor_resolution ∅ "" "" "" None)))
             eq_refl eq_refl).
  - exact (proj2 (proj2 (proj2 (structured_descriptor_resolution
                                  ∅ "Embed.set_author" "Embed" "set_author" None)))
             eq_refl eq_refl).
Defined.

(** ** What exact mode yields *)

Lemma elem_of_py_range (i a b : Z) : i ∈ py_range a b -> (a <= i < b)%Z.
Proof.
  unfold py_range. intros Hi. apply list_elem_of_fmap in Hi as (k & -> & Hk).
  apply elem_of_seq in Hk. lia.
Qed.

Section ExactModeYields.
Variables (target : string) (count : Z) (new_lines : list string) (tree : node).

Lemma exact_func_line_whole func_node i st :
  func_node ∈ walk tree -> is_function func_node = true ->
  i ∈ py_range (lineno func_node - 1) (end_lineno func_node) ->
  whole_definitions target new_lines tree st ->
  whole_definitions target new_lines tree
    (exact_func_line target count new_lines func_node i st).1.
Proof.
  intros Hin Hfun Hi H. unfold exact_func_line.
  destruct (_ =? _)%Z; [exact H|]. case_bool_decide; [exact H|].
  destruct (py_index new_lines i) as [line|] eqn:Hline; [|exact H].
  destruct (String.eqb_spec target line) as [->|]; [|exact H].
  apply Forall_app. split; [exact H|]. apply Forall_singleton.
  exists func_node, i, line. repeat split; try done.
  - unfold is_definition. by rewrite Hfun.
  - by apply elem_of_py_range in Hi as [? _].
  - by apply elem_of_py_range in Hi as [_ ?].
  - by right.
Qed.

Lemma exact_node_line_whole n i st :
  n ∈ walk tree -> is_definition n = true ->
  i ∈ py_range (lineno n - 1) (end_lineno n) ->
  whole_definitions target new_lines tree st ->
  whole_definitions target new_lines tree
    (exact_node_line target count new_lines n i st).1.
Proof.
  intros Hin Hdef Hi H. unfold exact_node_line.
  destruct (py_index new_lines i) as [line|] eqn:Hline; [|exact H].
  destruct (String.eqb_spec target (PyStr.rstrip (PyStr.lstrip line))) as [Heq|];
    [|exact H].
  destruct (_ && _).
  - apply (for_each_invariant (whole_definitions target new_lines tree)); [exact H|].
    intros func_node s Hchild Hs. unfold exact_class_child.
    destruct (is_function func_node) eqn:Hfun; [|exact Hs]. cbn [andb].
    destruct (_ && _); [|exact Hs].
    apply (for_each_invariant (whole_definitions target new_lines tree)); [exact Hs|].
    intros j s' Hj Hs'. apply exact_func_line_whole; try done.
    apply walk_in_tree. apply (in_tree_child tree n); [by apply walk_in_tree|done].
  - destruct (_ =? _)%Z; [exact H|]. case_bool_decide; [exact H|].
    apply Forall_app. split; [exact H|]. apply Forall_singleton.
    exists n, i, line. repeat split; try done.
    + by apply elem_of_py_range in Hi as [? _].
    + by apply elem_of_py_range in Hi as [_ ?].
    + by left.
Qed.
End ExactModeYields.

(** In exact mode every match is the whole text of a function or class of
    the tree, with its start line, and one of the lines of that definition
    is the query: after the white space at its ends is dropped, or, for a
    method found from its class, as it stands. *)
Theorem exact_mode_yields_whole_definitions (fuel : nat) (self : ParserV2) (count : Z)
    (allow : bool) (m : Match) :
  exact self = true ->
  m ∈ yielded (parse_data fuel self count allow) ->
  exists f i line,
    in_tree (data self) f /\ is_definition f = true
    /\ m = (PyStr.join newline
              (py_slice (normalised_lines (source_code self))
                 (lineno f - 1) (end_lineno f)),
            (lineno f - 1)%Z)
    /\ (lineno f - 1 <= i < end_lineno f)%Z
    /\ py_index (normalised_lines (source_code self)) i = Some line
    /\ (to_search_for self = PyStr.rstrip (PyStr.lstrip line)
        \/ to_search_for self = line).
Proof.
  intros Hex Hm. unfold parse_data in Hm. rewrite Hex in Hm.
  unfold finish in Hm; simpl in Hm.
  fold (normalised_lines (source_code self)) in Hm.
  match type of Hm with
  | _ ∈ emitted (for_each ?f ?xs ?st).1 =>
      assert (whole_definitions (to_search_for self)
                (normalised_lines (source_code self)) (data self)
                (for_each f xs st).1) as Hall
  end.
  { apply (for_each_invariant (whole_definitions _ _ _)); [apply Forall_nil_2|].
    intros n s Hn Hs. unfold exact_node. destruct (is_definition n) eqn:Hdef; [|exact Hs].
    apply (for_each_invariant (whole_definitions _ _ _)); [exact Hs|].
    intros i s' Hi Hs'. by apply exact_node_line_whole. }
  unfold whole_definitions in Hall. rewrite Forall_forall in Hall.
  destruct (Hall m Hm) as (f & i & line & Hf & H).
  exists f, i, line. split; [by apply walk_in_tree|exact H].
Qed.

Lemma exact_mode_yields_whole_definitions_witness :
  exists f i line,
    in_tree Examples.method_tree f /\ is_definition f = true
    /\ (PyStr.join newline ["def top():"; "    return 1"], 3%Z)
       = (PyStr.join newline
            (py_slice (normalised_lines Examples.method_src) (lineno f - 1) (end_lineno f)),
          (lineno f - 1)%Z)
    /\ (lineno f - 1 <= i < end_lineno f)%Z
    /\ py_index (normalised_lines Examples.method_src) i = Some line
    /\ ("return 1" = PyStr.rstrip (PyStr.lstrip line) \/ "return 1" = line).
Proof.
  apply (exact_mode_yields_whole_definitions 0
           (ParserV2_init Examples.method_src Examples.method_tree "return 1" None true)
           1 true).
  - reflexivity.
  - vm_compute. apply list_elem_of_here.
Defined.

(** ** The command line driver *)

Lemma filter_nil_existsb {A} (f : A -> bool) (l : list A) :
  List.filter f l = [] <-> existsb f l = false.
Proof.
  induction l as [|x l IH]; simpl; [done|].
  destruct (f x); simpl; [split; discriminate|exact IH].
Qed.

(** [next] on a query by name without a class: the first definition of the
    name, and [StopIteration] when the tree has none. *)
Lemma next_by_name (fuel : nat) (self : ParserV2) :
  exact self = false -> cls self = None ->
  next (parse_data fuel self 1 true) =
  match List.filter (named (to_search_for self)) (walk (data self)) with
  | f :: _ => inl (snippet (PyStr.splitlines (source_code self)) f)
  | [] => inr Uncaught_StopIteration
  end.
Proof.
  intros Hex Hcls. rewrite (parse_data_by_name fuel self 1 true Hex Hcls) by lia.
  unfold next; simpl. by destruct (List.filter _ _).
Qed.

Lemma for_each_never_throws_in {A St} (f : A -> St -> St * signal) xs st :
  (forall x s e, x ∈ xs -> (f x s).2 <> Throw e) ->
  forall e, (for_each f xs st).2 <> Throw e.
Proof.
  revert st. induction xs as [|x xs IH]; intros st Hf e; simpl; [discriminate|].
  pose proof (Hf x st) as Hx.
  destruct (f x st) as [st' [| |e']]; simpl in *.
  - apply IH. intros y s e0 Hy. apply Hf. by apply list_elem_of_further.
  - discriminate.
  - apply Hx, list_elem_of_here.
Qed.

(** A loop whose rounds only add to what is printed. *)
Lemma for_each_prints {A} (f : A -> list string -> list string * signal)
    (g : A -> list string) (xs : list A) (out : list string) :
  (forall x o, x ∈ xs -> f x o = (o ++ g x, Next)) ->
  for_each f xs out = (out ++ flat_map g xs, Next).
Proof.
  revert out. induction xs as [|x xs IH]; intros out Hf; simpl.
  - by rewrite app_nil_r.
  - rewrite (Hf x out) by apply list_elem_of_here.
    rewrite IH by (intros y o Hy; apply Hf; by apply list_elem_of_further).
    by rewrite app_assoc.
Qed.

Lemma enumerate1_elem (l : list string) (numbered : Z * string) :
  numbered ∈ enumerate1 l -> (1 <= numbered.1)%Z /\ exists first, l !! 0 = Some first.
Proof.
  unfold enumerate1. intros H. apply elem_of_lookup_imap in H as (i & y & -> & Hy).
  split; [simpl; lia|]. destruct l as [|first l]; [discriminate|]. by exists first.
Qed.

(** The line that is looked at for a loop is the first line of the file. *)
Lemma scan_looks_at_first_line (l : list string) (first : string) (line_num : Z) :
  (1 <= line_num)%Z -> l !! 0 = Some first ->
  py_index l (Z.min (line_num - 1) 0) = Some first.
Proof.
  intros Hnum Hfirst. rewrite Z.min_r by lia. unfold py_index.
  destruct l as [|x l]; [discriminate|]. simpl in *. exact Hfirst.
Qed.

Lemma scan_variables_never_throws (file source : string) (e : exn) :
  (scan_variables file source).2 <> Throw e.
Proof.
  unfold scan_variables. apply for_each_never_throws_in.
  intros numbered out e' Hnum.
  destruct (enumerate1_elem _ _ Hnum) as [Hone [first Hfirst]].
  apply for_each_never_throws. intros test_var o e''.
  unfold scan_test_var. destruct (str_contains _ _); [|discriminate].
  rewrite (scan_looks_at_first_line _ first _ Hone Hfirst). simpl.
  case_bool_decide; discriminate.
Qed.

(** How [run] ends on one file. *)
Lemma run_file_ended {U : UnicodeData} (fuel : nat) (file source : string)
    (tree : node) :
  run_ended (run_file fuel file source tree)
  = if has_handlers tree then Completed else Uncaught_StopIteration.
Proof.
  unfold run_file, has_handlers, defines, tests.
  cbn [check_functions].
  rewrite next_by_name by reflexivity. cbn [to_search_for data ParserV2_init].
  destruct (List.filter (named "on_ready") (walk tree)) as [|f1 l1] eqn:H1.
  { apply filter_nil_existsb in H1 as ->. reflexivity. }
  assert (existsb (named "on_ready") (walk tree) = true) as ->.
  { destruct (existsb _ _) eqn:Hn; [reflexivity|].
    apply filter_nil_existsb in Hn. congruence. }
  change (parse_attributes (QStr "setup_hook") false
            (Some (ParserV2_init source tree "on_ready" None false)))
    with (Ok (Reloads (_reload (ParserV2_init source tree "on_ready" None false)
                         "setup_hook" None false))).
  cbv iota beta.
  rewrite next_by_name by reflexivity. cbn [to_search_for data ParserV2_init _reload].
  destruct (List.filter (named "setup_hook") (walk tree)) as [|f2 l2] eqn:H2.
  { apply filter_nil_existsb in H2 as ->. reflexivity. }
  assert (existsb (named "setup_hook") (walk tree) = true) as ->.
  { destruct (existsb _ _) eqn:Hn; [reflexivity|].
    apply filter_nil_existsb in Hn. congruence. }
  change (parse_attributes (QStr "on_message") false
            (Some (_reload (ParserV2_init source tree "on_ready" None false)
                     "setup_hook" None false)))
    with (Ok (Reloads (_reload (_reload (ParserV2_init source tree "on_ready" None false)
                                  "setup_hook" None false) "on_message" None false))).
  cbv iota beta.
  rewrite next_by_name by reflexivity. cbn [to_search_for data ParserV2_init _reload].
  destruct (List.filter (named "on_message") (walk tree)) as [|f3 l3] eqn:H3.
  { apply filter_nil_existsb in H3 as ->. reflexivity. }
  assert (existsb (named "on_message") (walk tree) = true) as ->.
  { destruct (existsb _ _) eqn:Hn; [reflexivity|].
    apply filter_nil_existsb in Hn. congruence. }
  cbn [run_ended andb].
  pose proof (scan_variables_never_throws file source) as Hscan.
  destruct (scan_variables file source) as [out [| |e]]; simpl in *; try reflexivity.
  by destruct (Hscan e).
Qed.

(** [run] goes through all the files exactly when the tree of every file
    holds a definition named [on_ready], one named [setup_hook] and one named
    [on_message]; otherwise [next] leaves it with [StopIteration]. *)
Theorem run_needs_handlers {U : UnicodeData} (fuel : nat)
    (files : list (string * string * node)) :
  run_ended (run fuel files)
  = if forallb (fun f => has_handlers f.2) files
    then Completed else Uncaught_StopIteration.
Proof.
  induction files as [|[[file source] tree] files IH]; [reflexivity|].
  cbn [run forallb snd].
  pose proof (run_file_ended fuel file source tree) as Hfile.
  destruct (has_handlers tree); rewrite Hfile; [exact IH|].
  cbn [andb]. exact Hfile.
Qed.

(** A first file without [on_ready] ends the run before anything is printed:
    neither this file nor the files after it are searched. *)
Theorem run_without_on_ready {U : UnicodeData} (fuel : nat) (file source : string)
    (tree : node) (files : list (string * string * node)) :
  defines tree "on_ready" = false ->
  run fuel ((file, source, tree) :: files)
  = {| printed := []; run_ended := Uncaught_StopIteration |}.
Proof.
  intros Hnone.
  assert (run_file fuel file source tree
          = {| printed := []; run_ended := Uncaught_StopIteration |}) as Hfile.
  { unfold run_file, tests. cbn [check_functions].
    rewrite next_by_name by reflexivity. cbn [to_search_for data ParserV2_init].
    apply filter_nil_existsb in Hnone. by rewrite Hnone. }
  cbn [run]. by rewrite Hfile.
Qed.

Lemma run_without_on_ready_witness :
  run (U := Examples.ascii_only) 0 [ ("a.py", Examples.inherit_src, Examples.inherit_tree);
          ("bot.py", Examples.bot_src, Examples.bot_tree) ]
  = {| printed := []; run_ended := Uncaught_StopIteration |}.
Proof.
  apply (run_without_on_ready 0 "a.py" Examples.inherit_src Examples.inherit_tree).
  reflexivity.
Defined.

(** Unless the first line of the file starts, after its indentation, with
    [for], every finding of the search for variables carries the number of
    the line of the match itself, whatever stands on the line before it. *)
Theorem scan_variables_first_line (file source : string) :
  (forall first, PyStr.splitlines source !! 0 = Some first ->
                 PyStr.startswith (PyStr.lstrip first) "for " = false) ->
  scan_variables file source = (scan_variables_plain file source, Next).
Proof.
  intros Hfirst. unfold scan_variables, scan_variables_plain.
  apply (for_each_prints _ _ _ []).
  intros numbered out Hnum.
  destruct (enumerate1_elem _ _ Hnum) as [Hone [first Hl]].
  apply for_each_prints. intros test_var o _.
  unfold scan_test_var. destruct (str_contains _ _); [|by rewrite app_nil_r].
  rewrite (scan_looks_at_first_line _ first _ Hone Hl). simpl.
  rewrite (Hfirst first Hl). by case_bool_decide.
Qed.

(** The send of line 3 is in the loop of line 2, and is reported at line 3. *)
Lemma scan_variables_first_line_witness :
  scan_variables "bot.py" Examples.loop_src
  = (finding "bot.py#3"
       ("Do not use 'member.send' in this context! (Line 3)" +:+ newline
        +:+ reason_of "member.send"),
     Next).
Proof.
  rewrite (scan_variables_first_line "bot.py" Examples.loop_src).
  - vm_compute. reflexivity.
  - intros first Hfirst. vm_compute in Hfirst. injection Hfirst as <-. reflexivity.
Defined.

(** ** The scope of a query with a class *)

Lemma made_index (self : ParserV2) :
  made self -> exact self = false ->
  _node_mapping self = Some (build_node_mapping (data self)).
Proof.
  intros [source tree target c ex|p target c ex _] Hex; simpl in *; by subst ex.
Qed.

(** The resolver adds nothing but values of the index. *)
Lemma parent_queue_loop_values (self : ParserV2) (mapping : gmap string node)
    (lines : list string) (P : node -> Prop) (fuel : nat) (queue : list string)
    (acc r : list node) :
  _node_mapping self = Some mapping ->
  (forall k n, mapping !! k = Some n -> P n) ->
  Forall P acc ->
  parent_queue_loop fuel self lines queue acc = Some (Ok r) ->
  Forall P r.
Proof.
  intros Hmap Hvalues. revert queue acc.
  induction fuel as [|fuel IH]; intros [|a queue] acc Hacc; simpl; try discriminate.
  - by intros [= <-].
  - by intros [= <-].
  - rewrite Hmap. destruct (mapping !! a) as [n|] eqn:Ha; [|by apply IH].
    destruct (py_index lines _); [|discriminate].
    rewrite (filter_parent_classes_indexed self mapping Hmap).
    apply IH. apply Forall_app. split; [exact Hacc|].
    apply Forall_singleton. by apply (Hvalues a).
Qed.

(** The scan of a list of classes yields methods of their bodies only. *)
Lemma class_scan_methods (target : string) (count : Z) (lines : list string)
    (P : node -> Prop) (nodes : list node) (st : gen_state Z) :
  Forall P nodes ->
  Forall (fun m => exists cl f, P cl /\ f ∈ body cl /\ method_named target f = true
                                /\ m = snippet lines f) (emitted st) ->
  Forall (fun m => exists cl f, P cl /\ f ∈ body cl /\ method_named target f = true
                                /\ m = snippet lines f)
    (emitted (for_each (class_node target count lines) nodes st).1).
Proof.
  intros Hnodes Hst. rewrite Forall_forall in Hnodes.
  apply (for_each_invariant
           (fun st => Forall (fun m => exists cl f, P cl /\ f ∈ body cl
                                /\ method_named target f = true /\ m = snippet lines f)
                        (emitted st))); [exact Hst|].
  intros cl s Hcl Hs. unfold class_node. destruct (_ =? _)%Z; [exact Hs|].
  rewrite class_body_scan. apply Forall_app. split; [exact Hs|].
  apply Forall_fmap, Forall_forall. intros f Hf.
  apply list_elem_of_In, filter_In in Hf as [Hf Hnamed]. apply list_elem_of_In in Hf.
  exists cl, f. split; [by apply Hnodes|done].
Qed.

(** With a class set, name mode yields nothing but methods of the queried
    name that stand in the body of a class of the tree; a function of the
    same name outside a class body is not yielded.  Without ancestor search
    the class is the one of the queried class name. *)
Theorem class_scope_yields_methods (fuel : nat) (self : ParserV2) (count : Z)
    (allow : bool) (c : string) (m : Match) :
  made self -> exact self = false -> cls self = Some c ->
  m ∈ yielded (parse_data fuel self count allow) ->
  exists cl f,
    (in_tree (data self) cl /\ is_ClassDef cl = true /\ (allow = false -> name cl = c))
    /\ f ∈ body cl /\ method_named (to_search_for self) f = true
    /\ m = snippet (PyStr.splitlines (source_code self)) f.
Proof.
  intros Hmade Hex Hcls Hm.
  pose proof (made_index self Hmade Hex) as Hmap.
  unfold parse_data in Hm. rewrite Hex, Hcls, Hmap in Hm.
  destruct (build_node_mapping (data self) !! c) as [n|] eqn:Hn;
    [|by apply elem_of_nil in Hm].
  pose proof (index_lookup_class _ _ _ Hn) as (Hn1 & Hn2 & Hn3).
  assert (forall nodes,
    Forall (fun cl => in_tree (data self) cl /\ is_ClassDef cl = true
                      /\ (allow = false -> name cl = c)) nodes ->
    m ∈ yielded (finish (for_each (class_node (to_search_for self) count
                                     (PyStr.splitlines (source_code self))) nodes
                           {| already_searched := 0%Z; emitted := [] |})) ->
    exists cl f,
      (in_tree (data self) cl /\ is_ClassDef cl = true /\ (allow = false -> name cl = c))
      /\ f ∈ body cl /\ method_named (to_search_for self) f = true
      /\ m = snippet (PyStr.splitlines (source_code self)) f) as Hscan.
  { intros nodes Hnodes Hin. unfold finish in Hin; simpl in Hin.
    pose proof (class_scan_methods (to_search_for self) count
                  (PyStr.splitlines (source_code self)) _ nodes
                  {| already_searched := 0%Z; emitted := [] |} Hnodes (Forall_nil_2 _))
      as Hall.
    rewrite Forall_forall in Hall. by apply Hall. }
  destruct allow.
  - destruct (py_index _ _); [|by apply elem_of_nil in Hm].
    rewrite (filter_parent_classes_indexed self _ Hmap) in Hm.
    destruct (get_all_parent_classes _ _ _ _) as [[nodes|e]|] eqn:Hloop;
      try by apply elem_of_nil in Hm.
    apply (Hscan nodes); [|exact Hm].
    unfold get_all_parent_classes in Hloop.
    eapply parent_queue_loop_values; [exact Hmap| | |exact Hloop].
    + intros k cl Hk. apply index_lookup_class in Hk as (? & ? & ?). by repeat split.
    + apply Forall_singleton. by repeat split.
  - apply (Hscan [n]); [|exact Hm]. apply Forall_singleton. by repeat split.
Qed.

(** The method [foo] of the base class [A] is what the query for [foo] in
    class [B] yields. *)
Lemma class_scope_yields_methods_witness :
  exists cl f,
    (in_tree Examples.inherit_tree cl /\ is_ClassDef cl = true
     /\ (true = false -> name cl = "B"))
    /\ f ∈ body cl /\ method_named "foo" f = true
    /\ (PyStr.join newline ["    def foo(self):"; "        return 1"], 1%Z)
       = snippet (PyStr.splitlines Examples.inherit_src) f.
Proof.
  apply (class_scope_yields_methods 1
           (ParserV2_init Examples.inherit_src Examples.inherit_tree "foo" (Some "B") false)
           1 true "B").
  - apply made_init.
  - reflexivity.
  - reflexivity.
  - vm_compute. apply list_elem_of_here.
Defined.

(** ** Call parentheses *)

Lemma rev_app_append (s1 s2 : string) : String.rev_app s1 s2 = String.rev s1 +:+ s2.
Proof.
  revert s2. induction s1 as [|a s1 IH]; intros s2; [reflexivity|].
  unfold String.rev. cbn [String.rev_app]. rewrite (IH (String a s2)), (IH (String a "")).
  by rewrite append_assoc.
Qed.

Lemma rev_cons (a : ascii) (s : string) :
  String.rev (String a s) = String.rev s +:+ String a "".
Proof. unfold String.rev at 1. cbn [String.rev_app]. apply rev_app_append. Qed.

Lemma rev_append (a b : string) : String.rev (a +:+ b) = String.rev b +:+ String.rev a.
Proof.
  induction a as [|c a IH].
  - rewrite append_nil. change (String.rev "") with "".
    induction (String.rev b) as [|d r IHr]; [reflexivity|].
    rewrite append_cons. by rewrite <- IHr.
  - rewrite append_cons, !rev_cons, IH. by rewrite append_assoc.
Qed.

(** What [lstrip("()")] leaves of a text that ends with a call. *)
Lemma lstrip_chars_call (x : string) :
  PyStr.lstrip_chars "()" (x +:+ "()")
  = match PyStr.lstrip_chars "()" x with
    | EmptyString => ""
    | y => y +:+ "()"
    end.
Proof.
  induction x as [|c x IH]; [reflexivity|].
  rewrite append_cons. cbn [PyStr.lstrip_chars].
  destruct (PyStr.mem_char c "()"); [exact IH|]. by rewrite append_cons.
Qed.

(** ["name()".strip("()")] is ["name".strip("()")]. *)
Lemma strip_chars_call (x : string) :
  PyStr.strip_chars (x +:+ "()") "()" = PyStr.strip_chars x "()".
Proof.
  unfold PyStr.strip_chars. rewrite lstrip_chars_call.
  destruct (PyStr.lstrip_chars "()" x) as [|c y]; [reflexivity|].
  by rewrite rev_append.
Qed.

Lemma prefix_cons (c d : ascii) (p s : string) :
  String.prefix (String c p) (String d s)
  = if ascii_dec c d then String.prefix p s else false.
Proof. reflexivity. Qed.

(** A prefix without parenthesis of a text that ends with a call is a prefix
    of the text before the call. *)
Lemma prefix_before_call (p a : string) :
  PyStr.mem_char "(" p = false ->
  String.prefix p (a +:+ "()") = true -> String.prefix p a = true.
Proof.
  revert a. induction p as [|c p IH]; intros a Hp H; [by destruct a|].
  cbn [PyStr.mem_char] in Hp.
  destruct (Ascii.eqb_spec "(" c) as [|Hc]; [discriminate|].
  destruct a as [|d a].
  - rewrite append_nil in H. change "()" with (String "(" ")") in H.
    rewrite prefix_cons in H. destruct (ascii_dec c "("); [congruence|discriminate].
  - rewrite append_cons, prefix_cons in H. rewrite prefix_cons.
    destruct (ascii_dec c d); [by apply IH|discriminate].
Qed.

(** The segments of a path that ends with a call: the call goes to the last
    segment. *)
Lemma split_go_call (cur s : string) :
  exists init last,
    PyStr.split_go "." 0 cur s = init ++ [last]
    /\ PyStr.split_go "." 0 cur (s +:+ "()") = init ++ [last +:+ "()"].
Proof.
  revert cur. induction s as [|c s IH]; intros cur.
  - exists [], (String.rev cur). split; [reflexivity|].
    rewrite append_nil. cbn [PyStr.split_go app].
    change (String.prefix "." "()") with false.
    change (String.prefix "." ")") with false. cbv iota.
    by rewrite !rev_cons, !append_assoc.
  - rewrite append_cons. cbn [PyStr.split_go]. rewrite !prefix_char.
    destruct (Ascii.eqb c "."); cbn [String.length Nat.sub].
    + destruct (IH "") as (init & last & H1 & H2).
      exists (String.rev cur :: init), last. by rewrite H1, H2.
    + apply IH.
Qed.

(** A query written as a call, ["name()"] or ["Class.name()"], is resolved
    as the query without the parentheses. *)
Theorem call_parentheses_ignored {U : UnicodeData} (index first : string)
    (rest : list string) (ret : string) (parent : option string) :
  PyStr.split index "." = first :: rest ->
  PyStr.startswith first "discord" = false ->
  parse_attributes (QStr index) false None = Ok (Returns ret parent false) ->
  parse_attributes (QStr (index +:+ "()")) false None = Ok (Returns ret parent false).
Proof.
  intros Hsplit Hstart Hok.
  destruct (split_go_call "" index) as (init & last & Hseg & Hcall).
  fold (PyStr.split index ".") in Hseg. fold (PyStr.split (index +:+ "()") ".") in Hcall.
  rewrite Hsplit in Hseg.
  destruct (parse_dotted_plain index first rest Hsplit Hstart) as [Hrem Hclean].
  unfold parse_attributes in Hok. rewrite (parse_dotted_clean index Hclean), Hrem in Hok.
  destruct init as [|a [|b init]]; simpl in Hseg.
  - injection Hseg as -> ->.
    assert (PyStr.startswith (last +:+ "()") "discord" = false) as Hstart'.
    { unfold PyStr.startswith in *. destruct (String.prefix _ (last +:+ "()")) eqn:Hp;
        [|reflexivity].
      apply prefix_before_call in Hp; [congruence|reflexivity]. }
    destruct (parse_dotted_plain _ _ _ Hcall Hstart') as [Hrem' Hclean'].
    unfold parse_attributes. rewrite (parse_dotted_clean _ Hclean'), Hrem'.
    simpl in *. by rewrite strip_chars_call.
  - injection Hseg as -> ->.
    destruct (parse_dotted_plain _ _ _ Hcall Hstart) as [Hrem' Hclean'].
    unfold parse_attributes. rewrite (parse_dotted_clean _ Hclean'), Hrem'.
    destruct (PyStr.first_char a) as [ch|]; [|discriminate].
    simpl in *. by rewrite strip_chars_call.
  - injection Hseg as -> ->. destruct init; discriminate.
Qed.

Lemma call_parentheses_ignored_witness :
  parse_attributes (U := Examples.ascii_only) (QStr ("Embed.set_author" +:+ "()")) false None
  = Ok (Returns "set_author" (Some "Embed") false).
Proof.
  exact (call_parentheses_ignored "Embed.set_author" "Embed" ["set_author"]
           "set_author" (Some "Embed") eq_refl eq_refl eq_refl).
Defined.

(** ** Line accounting in name mode *)

(** The match made for a definition that starts at line [L], with [1 <= L],
    and ends at a line not before it. *)
Lemma snippet_line_accounting (lines : list string) (f : node) :
  (1 <= lineno f <= end_lineno f)%Z ->
  snippet lines f = line_accounting lines (lineno f) (end_lineno f + 1).
Proof.
  intros H. unfold snippet, line_accounting.
  rewrite py_slice_lines_through by lia. by rewrite Z.add_simpl_r.
Qed.

(** The scan of the classes yields the methods of [class_scan_nodes], in
    their order. *)
Lemma class_scan_emitted (target : string) (count : Z) (lines : list string)
    (classes : list node) (st : gen_state Z) :
  emitted (for_each (class_node target count lines) classes st).1
  = emitted st
    ++ map (snippet lines) (class_scan_nodes target count (already_searched st) classes).
Proof.
  revert st. induction classes as [|cl classes IH]; intros st; cbn [for_each class_scan_nodes].
  - by rewrite app_nil_r.
  - unfold class_node at 1. destruct (already_searched st =? count)%Z.
    + by rewrite app_nil_r.
    + rewrite class_body_scan, IH. cbn [emitted already_searched].
      by rewrite map_app, app_assoc.
Qed.

Lemma class_scan_nodes_methods (target : string) (count k : Z) (classes : list node) :
  Forall (fun f => exists cl, cl ∈ classes /\ f ∈ body cl /\ method_named target f = true)
    (class_scan_nodes target count k classes).
Proof.
  revert k. induction classes as [|cl classes IH]; intros k; cbn [class_scan_nodes].
  - apply Forall_nil_2.
  - destruct (k =? count)%Z; [apply Forall_nil_2|].
    apply Forall_app. split.
    + apply Forall_forall. intros f Hf.
      apply list_elem_of_In, filter_In in Hf as [Hf Hnamed]. apply list_elem_of_In in Hf.
      exists cl. split; [apply list_elem_of_here|done].
    + eapply Forall_impl; [apply IH|]. intros f (cl' & Hcl' & Hf).
      exists cl'. split; [by apply list_elem_of_further|exact Hf].
Qed.

(** The scan of the whole tree yields snippets of definitions of the name
    that it walks through, whatever [count] is. *)
Lemma walk_scan_nodes (target : string) (count : Z) (lines : list string)
    (xs : list node) :
  exists nodes,
    emitted (for_each (walk_node target count lines) xs
               {| already_searched := 0%Z; emitted := [] |}).1
    = map (snippet lines) nodes
    /\ Forall (fun f => f ∈ xs /\ named target f = true) nodes.
Proof.
  apply (for_each_invariant
           (fun st => exists nodes,
              emitted st = map (snippet lines) nodes
              /\ Forall (fun f => f ∈ xs /\ named target f = true) nodes)).
  - exists []. split; [reflexivity|apply Forall_nil_2].
  - intros x st Hx (nodes & Hst & Hnodes). unfold walk_node.
    destruct (_ =? _)%Z; [by exists nodes|].
    fold (named target x). destruct (named target x) eqn:Hnamed; [|by exists nodes].
    exists (nodes ++ [x]). cbn [fst yield_node emitted]. split.
    + by rewrite Hst, map_app.
    + apply Forall_app. split; [exact Hnodes|]. by apply Forall_singleton.
Qed.

(** C7.  Take a parser in name mode and a tree in which every definition
    starts at a line [L] with [1 <= L] and ends at a line not before it, as
    [ast.parse] gives them.  The matches that [parse_data] yields are, one
    for one and in order, the pairs (joined text of the source lines [L]
    through [M - 1], [L - 1]) of definitions of the queried name in the
    tree, where the definition starts at line [L] and its last line is the
    one before line [M].  These definitions are the first [count]
    definitions of the name in traversal order when no class is set; with a
    class set, a count other than zero and a generator that returns, they
    begin with all the methods of the name in the body of the queried
    class. *)
Theorem name_mode_line_accounting (fuel : nat) (self : ParserV2) (count : Z)
    (allow : bool) :
  made self -> exact self = false ->
  Forall (fun f => is_definition f = true -> (1 <= lineno f <= end_lineno f)%Z)
    (walk (data self)) ->
  exists nodes,
    yielded (parse_data fuel self count allow)
    = map (fun f => line_accounting (PyStr.splitlines (source_code self))
                      (lineno f) (end_lineno f + 1)) nodes
    /\ Forall (fun f => in_tree (data self) f /\ named (to_search_for self) f = true) nodes
    /\ (cls self = None -> (0 <= count)%Z ->
        nodes = take (Z.to_nat count)
                  (List.filter (named (to_search_for self)) (walk (data self))))
    /\ (forall c cl,
          cls self = Some c -> build_node_mapping (data self) !! c = Some cl ->
          count <> 0%Z -> ended (parse_data fuel self count allow) = Returned ->
          exists rest,
            nodes = List.filter (method_named (to_search_for self)) (body cl) ++ rest).
Proof.
  intros Hmade Hex Hwf.
  set (lines := PyStr.splitlines (source_code self)).
  set (target := to_search_for self).
  cut (exists nodes,
         yielded (parse_data fuel self count allow) = map (snippet lines) nodes
         /\ Forall (fun f => in_tree (data self) f /\ named target f = true) nodes
         /\ (cls self = None -> (0 <= count)%Z ->
             nodes = take (Z.to_nat count) (List.filter (named target) (walk (data self))))
         /\ (forall c cl,
               cls self = Some c -> build_node_mapping (data self) !! c = Some cl ->
               count <> 0%Z -> ended (parse_data fuel self count allow) = Returned ->
               exists rest, nodes = List.filter (method_named target) (body cl) ++ rest)).
  { intros (nodes & Hyield & Hnodes & Hfirst & Hclass). exists nodes.
    split; [|by repeat split]. rewrite Hyield. apply map_ext_Forall.
    eapply Forall_impl; [exact Hnodes|]. intros f [Hin Hnamed].
    apply snippet_line_accounting. rewrite Forall_forall in Hwf.
    apply Hwf; [by apply walk_in_tree|].
    unfold named in Hnamed. by apply andb_true_iff in Hnamed as [? _]. }
  assert (forall f, f ∈ walk (data self) /\ named target f = true ->
                    in_tree (data self) f /\ named target f = true) as Hwalk.
  { intros f [Hf Hnamed]. split; [by apply walk_in_tree|exact Hnamed]. }
  destruct (cls self) as [c|] eqn:Hcls.
  - pose proof (made_index self Hmade Hex) as Hmap.
    unfold parse_data. rewrite Hex, Hcls, Hmap. fold lines target.
    destruct (build_node_mapping (data self) !! c) as [n|] eqn:Hn.
    2:{ exists []. split; [reflexivity|]. split; [apply Forall_nil_2|].
        split; [discriminate|]. intros c' cl [= <-]. congruence. }
    pose proof (index_lookup_class _ _ _ Hn) as (Hn1 & _ & _).
    assert (forall more,
      Forall (in_tree (data self)) (n :: more) ->
      exists nodes,
        yielded (finish (for_each (class_node target count lines) (n :: more)
                           {| already_searched := 0%Z; emitted := [] |}))
        = map (snippet lines) nodes
        /\ Forall (fun f => in_tree (data self) f /\ named target f = true) nodes
        /\ (Some c = None -> (0 <= count)%Z ->
            nodes = take (Z.to_nat count) (List.filter (named target) (walk (data self))))
        /\ (forall c' cl,
              Some c = Some c' -> build_node_mapping (data self) !! c' = Some cl ->
              count <> 0%Z ->
              ended (finish (for_each (class_node target count lines) (n :: more)
                               {| already_searched := 0%Z; emitted := [] |})) = Returned ->
              exists rest, nodes = List.filter (method_named target) (body cl) ++ rest))
      as Hscan.
    { intros more Hmore. exists (class_scan_nodes target count 0 (n :: more)).
      split; [unfold finish; cbn [yielded]; by rewrite class_scan_emitted|].
      split; [|split; [discriminate|]].
      - eapply Forall_impl; [apply class_scan_nodes_methods|].
        intros f (cl & Hcl & Hf & Hnamed). rewrite Forall_forall in Hmore. split.
        + apply (in_tree_child _ cl); [by apply Hmore|exact Hf].
        + unfold method_named in Hnamed. unfold named, is_definition.
          apply andb_true_iff in Hnamed as [-> ->]. reflexivity.
      - intros c' cl [= <-] Hcl Hcount _. rewrite Hn in Hcl. injection Hcl as <-.
        cbn [class_scan_nodes]. destruct (Z.eqb_spec 0 count) as [<-|_]; [done|].
        by eexists. }
    assert (exists nodes : list node,
              @nil Match = map (snippet lines) nodes
              /\ Forall (fun f => in_tree (data self) f /\ named target f = true) nodes
              /\ (Some c = None -> (0 <= count)%Z ->
                  nodes = take (Z.to_nat count)
                            (List.filter (named target) (walk (data self))))) as Hnone.
    { exists []. split; [reflexivity|]. split; [apply Forall_nil_2|discriminate]. }
    destruct allow; [|apply (Hscan []); by apply Forall_singleton].
    destruct (py_index lines (lineno n - 1)) as [header|].
    2:{ destruct Hnone as (nodes & H1 & H2 & H3). exists nodes.
        repeat split; try done. }
    rewrite (filter_parent_classes_indexed self _ Hmap).
    destruct (get_all_parent_classes fuel self _ [n]) as [[new_nodes|e]|] eqn:Hloop.
    + unfold get_all_parent_classes in Hloop.
      destruct (parent_queue_loop_extends self _ _ Hmap _ _ _ _ Hloop) as [more ->].
      apply Hscan.
      eapply (parent_queue_loop_values self _ _ (in_tree (data self)));
        [exact Hmap| | |exact Hloop].
      * intros k cl Hk. by apply index_lookup_class in Hk as (? & _ & _).
      * by apply Forall_singleton.
    + destruct Hnone as (nodes & H1 & H2 & H3). exists nodes. repeat split; try done.
    + destruct Hnone as (nodes & H1 & H2 & H3). exists nodes. repeat split; try done.
  - destruct (Z_le_gt_dec 0 count) as [Hcount|Hcount].
    + rewrite (parse_data_by_name fuel self count allow Hex Hcls Hcount).
      fold lines target. cbn [yielded].
      exists (take (Z.to_nat count) (List.filter (named target) (walk (data self)))).
      split; [apply firstn_map|]. split; [|split; [done|discriminate]].
      apply Forall_take, Forall_forall. intros f Hf. apply Hwalk.
      apply list_elem_of_In, filter_In in Hf as [Hf Hnamed].
      by apply list_elem_of_In in Hf.
    + unfold parse_data. rewrite Hex, Hcls. fold lines target.
      destruct (walk_scan_nodes target count lines (walk (data self)))
        as (nodes & Hyield & Hnodes).
      exists nodes. split; [exact Hyield|]. split; [|split; [lia|discriminate]].
      eapply Forall_impl; [exact Hnodes|]. exact Hwalk.
Qed.

(** The function on the lines 10 to 12 is yielded with start line 9 and the
    text of the lines 10, 11 and 12; and the query for [foo] in class [B]
    yields the method on the lines 2 and 3 of the base class [A] with start
    line 1. *)
Lemma name_mode_line_accounting_witness :
  (parse_data 0 (ParserV2_init Examples.ready_src Examples.ready_tree "on_ready" None false)
     1 true
   = {| yielded :=
          [(PyStr.join newline ["def on_ready():"; "    x = 1"; "    return x"], 9%Z)];
        ended := Returned |}
   /\ exists nodes,
        yielded (parse_data 0 (ParserV2_init Examples.ready_src Examples.ready_tree
                                 "on_ready" None false) 1 true)
        = map (fun f => line_accounting (PyStr.splitlines Examples.ready_src)
                          (lineno f) (end_lineno f + 1)) nodes
        /\ Forall (fun f => in_tree Examples.ready_tree f /\ named "on_ready" f = true) nodes
        /\ (@None string = None -> (0 <= 1)%Z ->
            nodes = take (Z.to_nat 1)
                      (List.filter (named "on_ready") (walk Examples.ready_tree)))
        /\ (forall c cl,
              @None string = Some c ->
              build_node_mapping Examples.ready_tree !! c = Some cl ->
              1%Z <> 0%Z ->
              ended (parse_data 0 (ParserV2_init Examples.ready_src Examples.ready_tree
                                     "on_ready" None false) 1 true) = Returned ->
              exists rest,
                nodes = List.filter (method_named "on_ready") (body cl) ++ rest))
  /\ (parse_data 1 (ParserV2_init Examples.inherit_src Examples.inherit_tree
                      "foo" (Some "B") false) 1 true
      = {| yielded :=
             [(PyStr.join newline ["    def foo(self):"; "        return 1"], 1%Z)];
           ended := Returned |}
      /\ exists nodes,
           yielded (parse_data 1 (ParserV2_init Examples.inherit_src Examples.inherit_tree
                                    "foo" (Some "B") false) 1 true)
           = map (fun f => line_accounting (PyStr.splitlines Examples.inherit_src)
                             (lineno f) (end_lineno f + 1)) nodes
           /\ Forall (fun f => in_tree Examples.inherit_tree f /\ named "foo" f = true) nodes
           /\ (Some "B" = None -> (0 <= 1)%Z ->
               nodes = take (Z.to_nat 1)
                         (List.filter (named "foo") (walk Examples.inherit_tree)))
           /\ (forall c cl,
                 Some "B" = Some c ->
                 build_node_mapping Examples.inherit_tree !! c = Some cl ->
                 1%Z <> 0%Z ->
                 ended (parse_data 1 (ParserV2_init Examples.inherit_src
                                        Examples.inherit_tree "foo" (Some "B") false)
                          1 true) = Returned ->
                 exists rest,
                   nodes = List.filter (method_named "foo") (body cl) ++ rest)).
Proof.
  split; (split; [vm_compute; reflexivity|]).
  - apply (name_mode_line_accounting 0
             (ParserV2_init Examples.ready_src Examples.ready_tree "on_ready" None false)
             1 true).
    + apply made_init.
    + reflexivity.
    + let l := eval vm_compute in (walk Examples.ready_tree) in
      change (walk (data (ParserV2_init Examples.ready_src Examples.ready_tree
                            "on_ready" None false))) with l.
      repeat (apply Forall_cons; split;
              [intros Hdef; first [discriminate Hdef | cbn [lineno end_lineno]; lia]|]).
      apply Forall_nil_2.
  - apply (name_mode_line_accounting 1
             (ParserV2_init Examples.inherit_src Examples.inherit_tree
                "foo" (Some "B") false)
             1 true).
    + apply made_init.
    + reflexivity.
    + let l := eval vm_compute in (walk Examples.inherit_tree) in
      change (walk (data (ParserV2_init Examples.inherit_src Examples.inherit_tree
                            "foo" (Some "B") false))) with l.
      repeat (apply Forall_cons; split;
              [intros Hdef; first [discriminate Hdef | cbn [lineno end_lineno]; lia]|]).
      apply Forall_nil_2.
Defined.
